(** * Agentcore workshop scripts: provisioning pipeline, state hand-off and
      cleanup sweep

    The Python scripts drive a remote resource API (boto3, the AgentCore
    SDK), a local JSON file and a terminal.  They are embedded here as
    programs of a small state-and-exception monad:

    - the remote platform and the operating system are an arbitrary
      deterministic environment: a type [W] of world states and one oracle
      per operation, which answers with a value or with an error;
    - the working directory is a finite map from paths to nodes;
    - [self] is the record of the attributes of the object a method runs on;
    - every operation performed on the environment is appended to a list of
      events, so that statements can speak about which calls were made.

    What is left out: the terminal output ([console.print], progress
    spinners, panels), which no result depends on; the shape of the
    platform's answers, taken to be the one the scripts index into; and
    keyboard interrupts inside a lab, whose calls fail with errors of class
    [Exception] only.  Interrupts are part of what the orchestrators see of
    a lab and of a prompt. *)

From stdpp Require Import gmap strings list.
From Stdlib Require Import DecimalString.

Local Open Scope string_scope.
Local Open Scope list_scope.

(** ** Python control flow: values, exceptions, state *)

Module Py.

(** The three exception classes the scripts distinguish.  [Exception] is what
    [except Exception] catches; [KeyboardInterrupt] and [SystemExit] derive
    from [BaseException] only, so that only a bare [except:] or a handler of
    their own catches them. *)
Inductive exn : Type :=
| Exception (msg : string)
| KeyboardInterrupt
| SystemExit (code : nat).

Inductive outcome (A : Type) : Type :=
| Return (a : A)
| Raise (e : exn).
Arguments Return {A} a.
Arguments Raise {A} e.

Definition is_Exception (e : exn) : Prop :=
  match e with Exception _ => True | _ => False end.

Section Monad.
Context {Ev S : Type}.

(** A computation maps the state before to an outcome, the state after and
    the events it produced, oldest first. *)
Definition M (A : Type) : Type := S -> outcome A * S * list Ev.

Definition ret {A} (a : A) : M A := fun s => (Return a, s, []).

Definition raise {A} (e : exn) : M A := fun s => (Raise e, s, []).

Definition bind {A B} (m : M A) (f : A -> M B) : M B := fun s =>
  match m s with
  | (Return a, s1, t1) => let '(o, s2, t2) := f a s1 in (o, s2, t1 ++ t2)
  | (Raise e, s1, t1) => (Raise e, s1, t1)
  end.

Definition gets {A} (f : S -> A) : M A := fun s => (Return (f s), s, []).

Definition modify (f : S -> S) : M unit := fun s => (Return tt, f s, []).

Definition emit (ev : Ev) : M unit := fun s => (Return tt, s, [ev]).

(** [try: m  except Exception as e: h e].  What [m] did to the state before
    it raised stays done. *)
Definition try_except {A} (m : M A) (h : string -> M A) : M A := fun s =>
  match m s with
  | (Raise (Exception msg), s1, t1) =>
      let '(o, s2, t2) := h msg s1 in (o, s2, t1 ++ t2)
  | r => r
  end.

(** [try: m  except: h], the bare handler, which catches every exception. *)
Definition try_bare {A} (m : M A) (h : M A) : M A := fun s =>
  match m s with
  | (Raise _, s1, t1) => let '(o, s2, t2) := h s1 in (o, s2, t1 ++ t2)
  | r => r
  end.

(** [try: m] with handlers chosen by class: [h e] is the handler that catches
    [e], if any does. *)
Definition try_catch {A} (m : M A) (h : exn -> option (M A)) : M A := fun s =>
  match m s with
  | (Raise e, s1, t1) =>
      match h e with
      | Some k => let '(o, s2, t2) := k s1 in (o, s2, t1 ++ t2)
      | None => (Raise e, s1, t1)
      end
  | r => r
  end.

(** [for x in l: body x] with no [break] and no [return] in the body. *)
Fixpoint for_each {X} (l : list X) (body : X -> M unit) : M unit :=
  match l with
  | [] => ret tt
  | x :: l' => bind (body x) (fun _ => for_each l' body)
  end.

Definition outcome_of {A} (r : outcome A * S * list Ev) : outcome A := r.1.1.
Definition state_of {A} (r : outcome A * S * list Ev) : S := r.1.2.
Definition events_of {A} (r : outcome A * S * list Ev) : list Ev := r.2.
End Monad.

Arguments M : clear implicits.

Declare Scope py_scope.
Delimit Scope py_scope with py.
Notation "x <- c1 ;; c2" := (bind c1 (fun x => c2))
  (at level 100, c1 at next level, right associativity) : py_scope.
Notation "c1 ;; c2" := (bind c1 (fun _ => c2))
  (at level 100, right associativity) : py_scope.

(** [triple m Q E]: from every state, [m] either returns a value in [Q] or
    raises an exception in [E]. *)
Definition triple {Ev S A} (m : M Ev S A) (Q : A -> Prop) (E : exn -> Prop)
  : Prop :=
  forall s, match outcome_of (m s) with
            | Return a => Q a
            | Raise e => E e
            end.

(** A computation that returns [a] whatever happens. *)
Definition always {Ev S A} (m : M Ev S A) (a : A) : Prop :=
  forall s, exists s' t, m s = (Return a, s', t).

End Py.

Import Py.
Local Open Scope py_scope.

(** ** The environment: remote services, operating system, terminal *)

Module Facade.

(** What a call on the environment answers: a value, or an error of class
    [Exception] (a [ClientError], an [ImportError], an [OSError], ...). *)
Inductive reply (A : Type) : Type :=
| Ok (a : A)
| Err (msg : string).
Arguments Ok {A} a.
Arguments Err {A} msg.

(** One record of a [retrieve_memories] answer, as far as
    [wait_for_memory_processing] looks into it. *)
Inductive mem_content : Type :=
| NoContent                          (* no "content" key *)
| ContentDict (text : option string) (* a dict; its "text", when truthy *)
| ContentOther.                      (* any other value: it has no [get] *)

Inductive mem_record : Type :=
| MemDict (content : mem_content)
| MemOther.

(** The operations the scripts perform, with the arguments that matter. *)
Inductive Call : Type :=
| ImportModule (name : string)
| Boto3Client (service : string)
| ConfirmAsk (prompt : string)
| SsmGetParameter (name : string)
| SsmPutParameter (name value : string)
| SsmDeleteParameter (name : string)
| GetGateway (gateway_id : string)
| CreateGateway (name role_arn client_id discovery_url : string)
| CreateGatewayTarget (gateway_id : option string) (lambda_arn : string)
| MemoryClientNew (region : string)
| CreateMemoryAndWait (name : string)
| CreateEvent (memory_id : option string) (actor_id session_id : string)
| RetrieveMemories (memory_id : option string) (namespace : string)
| MemoryHooksNew (memory_id : option string)
| DeleteMemory (memory_id : string)
| BedrockModelNew   (* the lab 1 tools and [BedrockModel(...)] *)
| AgentBuild        (* [Agent(...)] *)
| AgentInvoke (query : string)
| IamGetRole (role_name : string)
| IamListAttachedRolePolicies (role_name : string)
| IamDetachRolePolicy (role_name policy_arn : string)
| IamListRolePolicies (role_name : string)
| IamDeleteRolePolicy (role_name policy_name : string)
| IamDeleteRole (role_name : string)
| EcrDeleteRepository (name : string)
| CognitoListUsers (pool_id : string)
| CognitoAdminDeleteUser (pool_id username : string)
| CognitoDeleteUserPool (pool_id : string)
| SecretsDeleteSecret (secret_id : string)
| LogsDescribeLogGroups (prefix : string)
| LogsDeleteLogGroup (name : string)
| OpenRead (path : string)
| OpenWrite (path : string)
| OsRemove (path : string)
| ShutilRmtree (path : string).

Inductive Event : Type :=
| Called (c : Call) (ok : bool)
| Slept (secs : nat).

(** The oracles.  Each takes the world to an answer and the world after. *)
Set Implicit Arguments.
Record Env (W : Type) : Type := {
  on_import : string -> W -> reply unit * W;
  on_boto3_client : string -> W -> reply unit * W;
  on_confirm_ask : string -> W -> reply bool * W;
  on_ssm_get_parameter : string -> W -> reply string * W;
  on_ssm_put_parameter : string -> string -> W -> reply unit * W;
  on_ssm_delete_parameter : string -> W -> reply unit * W;
  on_get_gateway : string -> W -> reply string * W;
  on_create_gateway :
    string -> string -> string -> string -> W -> reply (string * string) * W;
  on_create_gateway_target :
    option string -> string -> W -> reply string * W;
  on_memory_client_new : string -> W -> reply unit * W;
  on_create_memory_and_wait : string -> W -> reply string * W;
  on_create_event :
    option string -> string -> string -> W -> reply unit * W;
  on_retrieve_memories :
    option string -> string -> W -> reply (list mem_record) * W;
  on_memory_hooks_new : option string -> W -> reply unit * W;
  on_delete_memory : string -> W -> reply unit * W;
  on_bedrock_model_new : W -> reply unit * W;
  on_agent_build : W -> reply unit * W;
  on_agent_invoke : string -> W -> reply unit * W;
  on_iam_get_role : string -> W -> reply string * W;
  on_iam_list_attached_role_policies : string -> W -> reply (list string) * W;
  on_iam_detach_role_policy : string -> string -> W -> reply unit * W;
  on_iam_list_role_policies : string -> W -> reply (list string) * W;
  on_iam_delete_role_policy : string -> string -> W -> reply unit * W;
  on_iam_delete_role : string -> W -> reply unit * W;
  on_ecr_delete_repository : string -> W -> reply unit * W;
  on_cognito_list_users : string -> W -> reply (list string) * W;
  on_cognito_admin_delete_user : string -> string -> W -> reply unit * W;
  on_cognito_delete_user_pool : string -> W -> reply unit * W;
  on_secrets_delete_secret : string -> W -> reply unit * W;
  on_logs_describe_log_groups : string -> W -> reply (list string) * W;
  on_logs_delete_log_group : string -> W -> reply unit * W;
  on_open_read : string -> W -> reply unit * W;
  on_open_write : string -> W -> reply unit * W;
  on_os_remove : string -> W -> reply unit * W;
  on_shutil_rmtree : string -> W -> reply unit * W;
}.
Unset Implicit Arguments.

(** *** The working directory *)

(** A JSON value stored under a key of [lab_config.json]: [null], a string, or
    a value that is neither and cannot be sliced (a number, a boolean, an
    object), of which only the truth value is kept.  Arrays are left out. *)
Inductive jval : Type :=
| JNull
| JStr (s : string)
| JOther (truthy : bool).

#[export] Instance jval_eq_dec : EqDecision jval.
Proof. solve_decision. Defined.

Inductive json : Type :=
| JObject (d : gmap string jval)
| JNonObject.

(** A file holds a JSON document or something [json.load] rejects. *)
Inductive node : Type :=
| File (content : option json)
| Dir.

Definition of_attr (v : option string) : jval :=
  match v with Some s => JStr s | None => JNull end.

Record State (W Obj : Type) : Type := mkState {
  world : W;
  disk : gmap string node;
  self : Obj;
}.
Arguments mkState {W Obj} world disk self.
Arguments world {W Obj} s.
Arguments disk {W Obj} s.
Arguments self {W Obj} s.

Section Operations.
Context {W Obj : Type} (env : Env W).

Definition with_world (w : W) (st : State W Obj) : State W Obj :=
  mkState w (disk st) (self st).
Definition with_disk (d : gmap string node) (st : State W Obj)
  : State W Obj :=
  mkState (world st) d (self st).
Definition with_self (o : Obj) (st : State W Obj) : State W Obj :=
  mkState (world st) (disk st) o.

(** Ask the environment, record the call, raise its error if it has one. *)
Definition perform {A} (c : Call) (f : W -> reply A * W)
  : M Event (State W Obj) A := fun st =>
  match f (world st) with
  | (Ok a, w) => (Return a, with_world w st, [Called c true])
  | (Err msg, w) => (Raise (Exception msg), with_world w st, [Called c false])
  end.

Definition attr {A} (f : Obj -> A) : M Event (State W Obj) A :=
  gets (fun st => f (self st)).
Definition set_self (f : Obj -> Obj) : M Event (State W Obj) unit :=
  modify (fun st => with_self (f (self st)) st).

(** [time.sleep(secs)] *)
Definition sleep (secs : nat) : M Event (State W Obj) unit :=
  emit (Slept secs).

(** [os.path.exists], [os.path.isfile], [os.path.isdir] *)
Definition path_exists (p : string) : M Event (State W Obj) bool :=
  gets (fun st => bool_decide (is_Some (disk st !! p))).
Definition path_isfile (p : string) : M Event (State W Obj) bool :=
  gets (fun st => match disk st !! p with Some (File _) => true | _ => false end).
Definition path_isdir (p : string) : M Event (State W Obj) bool :=
  gets (fun st => match disk st !! p with Some Dir => true | _ => false end).

(** [with open(p, "r") as f: json.load(f)] *)
Definition read_json (p : string) : M Event (State W Obj) json :=
  perform (OpenRead p) (on_open_read env p) ;;
  n <- gets (fun st => disk st !! p) ;;
  match n with
  | Some (File (Some j)) => ret j
  | Some (File None) => raise (Exception "JSONDecodeError")
  | Some Dir => raise (Exception "IsADirectoryError")
  | None => raise (Exception "FileNotFoundError")
  end.

(** [with open(p, "w") as f: json.dump(d, f)] *)
Definition write_json (p : string) (d : gmap string jval)
  : M Event (State W Obj) unit :=
  perform (OpenWrite p) (on_open_write env p) ;;
  n <- gets (fun st => disk st !! p) ;;
  match n with
  | Some Dir => raise (Exception "IsADirectoryError")
  | _ => modify (fun st => with_disk (<[p := File (Some (JObject d))]> (disk st)) st)
  end.

(** [os.remove(p)] *)
Definition os_remove (p : string) : M Event (State W Obj) unit :=
  perform (OsRemove p) (on_os_remove env p) ;;
  modify (fun st => with_disk (delete p (disk st)) st).

(** [shutil.rmtree(p)]: the directory and everything below it. *)
Definition below (p : string) (q : string) : bool :=
  String.prefix (p +:+ "/") q.
Definition shutil_rmtree (p : string) : M Event (State W Obj) unit :=
  perform (ShutilRmtree p) (on_shutil_rmtree env p) ;;
  modify (fun st =>
    with_disk (filter (fun kv => below p kv.1 = false) (delete p (disk st))) st).

End Operations.

End Facade.

Import Facade.

(** ** Lab 2: memory and personalization ([workshop/lab2.py]) *)

Module Lab2.

Record Self : Type := mkSelf {
  interactive : bool;
  memory_id : option string;
  memory_client : bool;     (* [None] until [MemoryClient(...)] returned *)
  agent : bool;             (* [None] until [Agent(...)] returned *)
  memory_hooks : bool;
  region : string;
  actor_id : string;
  session_id : string;
}.

(** [__init__]; [session_id] is the fresh [uuid4] of the object. *)
Definition init (interactive : bool) (region session_id : string) : Self :=
  mkSelf interactive None false false false region "customer_001" session_id.

Definition set_memory_id (v : option string) (o : Self) : Self :=
  mkSelf (interactive o) v (memory_client o) (agent o) (memory_hooks o)
         (region o) (actor_id o) (session_id o).
Definition set_memory_client (v : bool) (o : Self) : Self :=
  mkSelf (interactive o) (memory_id o) v (agent o) (memory_hooks o)
         (region o) (actor_id o) (session_id o).
Definition set_agent (v : bool) (o : Self) : Self :=
  mkSelf (interactive o) (memory_id o) (memory_client o) v (memory_hooks o)
         (region o) (actor_id o) (session_id o).
Definition set_memory_hooks (v : bool) (o : Self) : Self :=
  mkSelf (interactive o) (memory_id o) (memory_client o) (agent o) v
         (region o) (actor_id o) (session_id o).

Definition max_retries : nat := 6.

Definition Prog (W A : Type) : Type := M Event (State W Self) A.

Section Code.
Context {W : Type} (env : Env W).

(** A method of [self.memory_client], which is [None] before
    [create_memory_resource] assigned it. *)
Definition on_client {A} (c : Call) (f : W -> reply A * W)
  : Prog W A :=
  has <- attr memory_client ;;
  if has : bool then perform c f
  else raise (Exception "AttributeError: 'NoneType' object has no attribute").

Definition create_memory_resource : Prog W bool :=
  perform (ImportModule "bedrock_agentcore.memory")
          (on_import env "bedrock_agentcore.memory") ;;
  perform (ImportModule "bedrock_agentcore.memory.constants")
          (on_import env "bedrock_agentcore.memory.constants") ;;
  try_except
    (rg <- attr region ;;
     perform (MemoryClientNew rg) (on_memory_client_new env rg) ;;
     set_self (set_memory_client true) ;;
     id <- perform (CreateMemoryAndWait "CustomerSupportMemory")
             (on_create_memory_and_wait env "CustomerSupportMemory") ;;
     set_self (set_memory_id (Some id)) ;;
     ret true)
    (fun _ => ret false).

Definition seed_customer_history : Prog W bool :=
  try_except
    (mid <- attr memory_id ;;
     actor <- attr actor_id ;;
     on_client (CreateEvent mid actor "previous_session")
               (on_create_event env mid actor "previous_session") ;;
     ret true)
    (fun _ => ret false).

(** The body of the display loop: on a dict, the text of its content is
    looked up with [get], which a content that is no dict does not have;
    nothing is done on a record that is no dict.  The print is not kept. *)
Definition show_memory (m : mem_record) : Prog W unit :=
  match m with
  | MemDict ContentOther =>
      raise (Exception "AttributeError: object has no attribute 'get'")
  | _ => ret tt
  end.

(** One turn of the retry loop.  [Some b]: the function returns [b] from
    inside the loop; [None]: the loop goes on. *)
Definition attempt (retry : nat) : Prog W (option bool) :=
  try_except
    (mid <- attr memory_id ;;
     actor <- attr actor_id ;;
     memories <-
       on_client
         (RetrieveMemories mid ("support/customer/" +:+ actor +:+ "/preferences"))
         (on_retrieve_memories env mid
            ("support/customer/" +:+ actor +:+ "/preferences")) ;;
     match memories with
     | _ :: _ =>
         for_each (take 3 memories) show_memory ;;
         ret (Some true)
     | [] =>
         (if Nat.ltb retry (max_retries - 1) then sleep 10 else ret tt) ;;
         ret None
     end)
    (fun _ => sleep 10 ;; ret None).

Fixpoint wait_loop (retries : list nat) : Prog W bool :=
  match retries with
  | [] => ret true   (* "taking longer than expected": continue anyway *)
  | retry :: rest =>
      r <- attempt retry ;;
      match r with
      | Some b => ret b
      | None => wait_loop rest
      end
  end.

Definition wait_for_memory_processing : Prog W bool :=
  wait_loop (seq 0 max_retries).

(** [CustomerSupportMemoryHooks(...)], whose constructor asks the client
    for the memory strategies. *)
Definition create_memory_hooks : Prog W unit :=
  perform (ImportModule "strands.hooks") (on_import env "strands.hooks") ;;
  mid <- attr memory_id ;;
  on_client (MemoryHooksNew mid) (on_memory_hooks_new env mid) ;;
  set_self (set_memory_hooks true).

Definition create_agent_with_memory : Prog W bool :=
  perform (ImportModule "strands") (on_import env "strands") ;;
  perform (ImportModule "strands.models") (on_import env "strands.models") ;;
  perform (ImportModule "lab1_implementation")
          (on_import env "lab1_implementation") ;;
  try_except
    (perform BedrockModelNew (on_bedrock_model_new env) ;;
     perform AgentBuild (on_agent_build env) ;;
     set_self (set_agent true) ;;
     ret true)
    (fun _ => ret false).

Definition call_agent (query : string) : Prog W unit :=
  has <- attr agent ;;
  if has : bool then perform (AgentInvoke query) (on_agent_invoke env query)
  else raise (Exception "TypeError: 'NoneType' object is not callable").

Definition test_queries : list string :=
  ["Which headphones would you recommend?";
   "What's my preferred laptop brand?"].

Fixpoint test_loop (queries : list string) : Prog W bool :=
  match queries with
  | [] => ret true
  | q :: rest =>
      ok <- try_except (call_agent q ;; ret true) (fun _ => ret false) ;;
      if ok : bool then test_loop rest else ret false
  end.

Definition test_personalization : Prog W bool := test_loop test_queries.

Definition run : Prog W bool :=
  try_except
    (ok1 <- create_memory_resource ;;
     if negb ok1 then ret false else
     ok2 <- seed_customer_history ;;
     if negb ok2 then ret false else
     wait_for_memory_processing ;;
     create_memory_hooks ;;
     ok5 <- create_agent_with_memory ;;
     if negb ok5 then ret false else
     ok6 <- test_personalization ;;
     if negb ok6 then ret false else
     (* Save memory ID for next labs *)
     mid <- attr memory_id ;;
     write_json env "lab_config.json" {[ "memory_id" := of_attr mid ]} ;;
     ret true)
    (fun _ => ret false).
End Code.

(** How many [retrieve_memories] calls a run made, and how long it slept. *)
Definition is_retrieve (ev : Event) : bool :=
  match ev with Called (RetrieveMemories _ _) _ => true | _ => false end.
Definition retrieve_calls (t : list Event) : nat :=
  length (List.filter is_retrieve t).
Fixpoint sleeps (t : list Event) : list nat :=
  match t with
  | [] => []
  | Slept n :: t' => n :: sleeps t'
  | _ :: t' => sleeps t'
  end.

End Lab2.

(** ** Lab 3: gateway and shared tools ([lab3.py]) *)

Module Lab3.

Record CognitoConfig : Type := mkCognito {
  client_id : string;
  discovery_url : string;
  bearer_token : string;
}.

Record Self : Type := mkSelf {
  interactive : bool;
  memory_id : option string;
  gateway_id : option string;
  gateway_url : option string;
  agent : bool;
  cognito_config : option CognitoConfig;
  region : string;
}.

(** [__init__] *)
Definition init (interactive : bool) (memory_id : option string)
  (region : string) : Self :=
  mkSelf interactive memory_id None None false None region.

Definition set_memory_id (v : option string) (o : Self) : Self :=
  mkSelf (interactive o) v (gateway_id o) (gateway_url o) (agent o)
         (cognito_config o) (region o).
Definition set_gateway (id url : string) (o : Self) : Self :=
  mkSelf (interactive o) (memory_id o) (Some id) (Some url) (agent o)
         (cognito_config o) (region o).
Definition set_agent (v : bool) (o : Self) : Self :=
  mkSelf (interactive o) (memory_id o) (gateway_id o) (gateway_url o) v
         (cognito_config o) (region o).
Definition set_cognito_config (v : CognitoConfig) (o : Self) : Self :=
  mkSelf (interactive o) (memory_id o) (gateway_id o) (gateway_url o) (agent o)
         (Some v) (region o).

Definition Prog (W A : Type) : Type := M Event (State W Self) A.

(** The same state with another [memory_id] in the object. *)
Definition with_memory_id {W} (v : option string) (st : State W Self)
  : State W Self :=
  with_self (set_memory_id v (self st)) st.

(** A program that neither reads nor writes [memory_id]: it does the same
    whatever that attribute holds, and leaves it as it was. *)
Definition ignores_memory_id {W A} (m : Prog W A) : Prop :=
  forall st v,
    m (with_memory_id v st)
    = (outcome_of (m st), with_memory_id v (state_of (m st)), events_of (m st)).

Definition p_client_id : string := "/app/customersupport/agentcore/client_id".
Definition p_discovery_url : string :=
  "/app/customersupport/agentcore/cognito_discovery_url".
Definition p_gateway_id : string := "/app/customersupport/agentcore/gateway_id".
Definition p_gateway_url : string := "/app/customersupport/agentcore/gateway_url".
Definition p_gateway_iam_role : string :=
  "/app/customersupport/agentcore/gateway_iam_role".
Definition p_lambda_arn : string := "/app/customersupport/agentcore/lambda_arn".

Definition placeholder_gateway_role : string :=
  "arn:aws:iam::123456789012:role/AgentCoreGatewayRole".
Definition placeholder_lambda_arn (region : string) : string :=
  "arn:aws:lambda:" +:+ region +:+ ":123456789012:function:customer-support-tools".
Definition demo_cognito : CognitoConfig :=
  mkCognito "demo_client_id"
            "https://cognito-idp.us-east-1.amazonaws.com/demo" "demo_token".

(** The names of the tools of [create_api_spec]. *)
Definition create_api_spec : list string :=
  ["check_warranty_status"; "web_search"].

Section Code.
Context {W : Type} (env : Env W).

Definition ssm_get_parameter (name : string) : Prog W string :=
  perform (SsmGetParameter name) (on_ssm_get_parameter env name).
Definition ssm_put_parameter (name value : string) : Prog W unit :=
  perform (SsmPutParameter name value) (on_ssm_put_parameter env name value).
Definition boto3_client (service : string) : Prog W unit :=
  perform (Boto3Client service) (on_boto3_client env service).
Definition import_module (name : string) : Prog W unit :=
  perform (ImportModule name) (on_import env name).

Definition get_or_create_cognito : Prog W bool :=
  try_except
    (boto3_client "ssm" ;;
     try_bare
       (cid <- ssm_get_parameter p_client_id ;;
        durl <- ssm_get_parameter p_discovery_url ;;
        set_self (set_cognito_config (mkCognito cid durl "mock_token_for_demo")) ;;
        ret true)
       (set_self (set_cognito_config demo_cognito) ;;
        ret true))
    (fun _ => ret false).

Definition create_gateway : Prog W bool :=
  try_except
    (boto3_client "bedrock-agentcore-control" ;;
     boto3_client "ssm" ;;
     (* Check if gateway already exists *)
     try_bare
       (existing <- ssm_get_parameter p_gateway_id ;;
        url <- perform (GetGateway existing) (on_get_gateway env existing) ;;
        set_self (set_gateway existing url) ;;
        ret true)
       (* Create new gateway *)
       (role <- try_bare (ssm_get_parameter p_gateway_iam_role)
                         (ret placeholder_gateway_role) ;;
        cfg <- attr cognito_config ;;
        match cfg with
        | None =>
            raise (Exception "TypeError: 'NoneType' object is not subscriptable")
        | Some c =>
            created <-
              perform
                (CreateGateway "customersupport-gw" role (client_id c)
                               (discovery_url c))
                (on_create_gateway env "customersupport-gw" role (client_id c)
                                   (discovery_url c)) ;;
            set_self (set_gateway created.1 created.2) ;;
            ssm_put_parameter p_gateway_id created.1 ;;
            ssm_put_parameter p_gateway_url created.2 ;;
            ret true
        end))
    (fun _ => ret false).

Definition add_lambda_target : Prog W bool :=
  try_except
    (boto3_client "bedrock-agentcore-control" ;;
     boto3_client "ssm" ;;
     rg <- attr region ;;
     lambda_arn <- try_bare (ssm_get_parameter p_lambda_arn)
                            (ret (placeholder_lambda_arn rg)) ;;
     gid <- attr gateway_id ;;
     perform (CreateGatewayTarget gid lambda_arn)
             (on_create_gateway_target env gid lambda_arn) ;;
     ret true)
    (fun _ => ret true).   (* Continue anyway for demo *)

Definition create_agent_with_gateway : Prog W bool :=
  try_except
    (import_module "strands" ;;
     import_module "strands.models" ;;
     import_module "strands.tools.mcp" ;;
     import_module "mcp.client.streamable_http" ;;
     import_module "lab1_implementation" ;;
     perform BedrockModelNew (on_bedrock_model_new env) ;;
     url <- attr gateway_url ;;
     match url with
     | None =>
         raise (Exception "TypeError: 'NoneType' object is not subscriptable")
     | Some _ =>
         perform AgentBuild (on_agent_build env) ;;
         set_self (set_agent true) ;;
         ret true
     end)
    (fun _ => ret false).

Definition test_query : string := "What tools do you have available?".

Definition test_gateway_integration : Prog W bool :=
  try_except
    (has <- attr agent ;;
     (if has : bool
      then perform (AgentInvoke test_query) (on_agent_invoke env test_query)
      else raise (Exception "TypeError: 'NoneType' object is not callable")) ;;
     ret true)
    (fun _ => ret false).

(** The tail of [run]: merge the two new keys into [lab_config.json]. *)
Definition save_config : Prog W unit :=
  gid <- attr gateway_id ;;
  gurl <- attr gateway_url ;;
  ex <- path_exists "lab_config.json" ;;
  config <- (if ex : bool then read_json env "lab_config.json"
             else ret (JObject ∅)) ;;
  match config with
  | JObject d =>
      write_json env "lab_config.json"
        (<["gateway_id" := of_attr gid]> (<["gateway_url" := of_attr gurl]> d))
  | JNonObject =>
      raise (Exception "AttributeError: object has no attribute 'update'")
  end.

Definition run : Prog W bool :=
  try_except
    (ok1 <- get_or_create_cognito ;;
     if negb ok1 then ret false else
     ok2 <- create_gateway ;;
     if negb ok2 then ret false else
     add_lambda_target ;;
     ok4 <- create_agent_with_gateway ;;
     if negb ok4 then ret false else
     ok5 <- test_gateway_integration ;;
     if negb ok5 then ret false else
     save_config ;;
     ret true)
    (fun _ => ret false).
End Code.

Definition is_gateway_call (c : Call) : bool :=
  match c with CreateGateway _ _ _ _ => true | _ => false end.
Definition is_target_call (c : Call) : bool :=
  match c with CreateGatewayTarget _ _ => true | _ => false end.

(** The [create_gateway] calls and the [create_gateway_target] calls among
    the events of a run. *)
Definition gateway_creations (t : list Event) : list Event :=
  List.filter (fun ev => match ev with
                         | Called c _ => is_gateway_call c
                         | _ => false
                         end) t.
Definition target_creations (t : list Event) : list Event :=
  List.filter (fun ev => match ev with
                         | Called c _ => is_target_call c
                         | _ => false
                         end) t.

(** Does every [create_gateway] call of [t] come after an existence check
    that failed ([failed]: one was seen already)? *)
Fixpoint checked_before_create (failed : bool) (t : list Event) : bool :=
  match t with
  | [] => true
  | Called (SsmGetParameter name) false :: t' =>
      checked_before_create (failed || String.eqb name p_gateway_id) t'
  | Called (GetGateway _) false :: t' => checked_before_create true t'
  | Called (CreateGateway _ _ _ _) _ :: t' =>
      failed && checked_before_create failed t'
  | _ :: t' => checked_before_create failed t'
  end.

End Lab3.

(** ** Lab 4: the execution role ([lab4.py]) *)

Module Lab4.

Record Self : Type := mkSelf {
  interactive : bool;
  gateway_id : option string;
  runtime_arn : option string;
  runtime : bool;
  region : string;
}.

Definition init (interactive : bool) (gateway_id : option string)
  (region : string) : Self :=
  mkSelf interactive gateway_id None false region.

Definition Prog (W A : Type) : Type := M Event (State W Self) A.

Definition role_name : string := "AgentCoreRuntimeExecutionRole".
Definition mock_role_arn : string :=
  "arn:aws:iam::123456789012:role/AgentCoreRuntimeExecutionRole".

Section Code.
Context {W : Type} (env : Env W).

Definition create_execution_role : Prog W string :=
  try_except
    (perform (Boto3Client "iam") (on_boto3_client env "iam") ;;
     (* Check if role exists *)
     try_bare
       (perform (IamGetRole role_name) (on_iam_get_role env role_name))
       (* Return mock ARN for demo *)
       (ret ("arn:aws:iam::123456789012:role/" +:+ role_name)))
    (fun _ => ret "arn:aws:iam::123456789012:role/AgentCoreRuntimeExecutionRole").
End Code.

End Lab4.

(** ** Lab 6: the cleanup sweep ([workshop/lab6.py]) *)

Module Lab6.

Inductive Category : Type :=
| Memory | Runtime | Gateway | Security | Observability | Files.

(** [cleanup_summary]: per category, the outcome lines in the order they were
    appended. *)
Record Summary : Type := mkSummary {
  s_memory : list string;
  s_runtime : list string;
  s_gateway : list string;
  s_security : list string;
  s_observability : list string;
  s_files : list string;
}.

Definition empty_summary : Summary := mkSummary [] [] [] [] [] [].

Definition lines (c : Category) (s : Summary) : list string :=
  match c with
  | Memory => s_memory s
  | Runtime => s_runtime s
  | Gateway => s_gateway s
  | Security => s_security s
  | Observability => s_observability s
  | Files => s_files s
  end.

Definition append_line (c : Category) (x : string) (s : Summary) : Summary :=
  match c with
  | Memory =>
      mkSummary (s_memory s ++ [x]) (s_runtime s) (s_gateway s) (s_security s)
                (s_observability s) (s_files s)
  | Runtime =>
      mkSummary (s_memory s) (s_runtime s ++ [x]) (s_gateway s) (s_security s)
                (s_observability s) (s_files s)
  | Gateway =>
      mkSummary (s_memory s) (s_runtime s) (s_gateway s ++ [x]) (s_security s)
                (s_observability s) (s_files s)
  | Security =>
      mkSummary (s_memory s) (s_runtime s) (s_gateway s) (s_security s ++ [x])
                (s_observability s) (s_files s)
  | Observability =>
      mkSummary (s_memory s) (s_runtime s) (s_gateway s) (s_security s)
                (s_observability s ++ [x]) (s_files s)
  | Files =>
      mkSummary (s_memory s) (s_runtime s) (s_gateway s) (s_security s)
                (s_observability s) (s_files s ++ [x])
  end.

(** The sum of [display_cleanup_summary]. *)
Definition total_items (s : Summary) : nat :=
  length (s_memory s) + length (s_runtime s) + length (s_gateway s)
  + length (s_security s) + length (s_observability s) + length (s_files s).

Record Self : Type := mkSelf {
  interactive : bool;
  region : string;
  cleanup_summary : Summary;
}.

(** [__init__] *)
Definition init (interactive : bool) (region : string) : Self :=
  mkSelf interactive region empty_summary.

Definition Prog (W A : Type) : Type := M Event (State W Self) A.

(** Python truth of a configuration value. *)
Definition truthy (v : jval) : bool :=
  match v with
  | JNull => false
  | JStr s => negb (String.eqb s EmptyString)
  | JOther b => b
  end.

Definition slash : Ascii.ascii := Ascii.ascii_of_nat 47.

(** [s.split("/")[-1]] *)
Fixpoint has_slash (s : string) : bool :=
  match s with
  | EmptyString => false
  | String c rest => Ascii.eqb c slash || has_slash rest
  end.
Fixpoint last_segment (s : string) : string :=
  match s with
  | EmptyString => EmptyString
  | String c rest =>
      if has_slash rest then last_segment rest
      else if Ascii.eqb c slash then rest else String c rest
  end.

Definition iam_role_name : string := "AgentCoreRuntimeExecutionRole".
Definition ecr_repo_name : string := "customer-support-agent-runtime".
Definition secret_name : string := "customer-support-secret".
Definition ssm_parameters : list string :=
  ["/app/customersupport/agentcore/runtime_arn";
   "/app/customersupport/agentcore/gateway_url";
   "/app/customersupport/agentcore/client_id";
   "/app/customersupport/agentcore/pool_id";
   "/app/customersupport/agentcore/cognito_discovery_url"].
Definition log_group_prefixes : list string :=
  ["/aws/bedrock/agentcore/runtime";
   "/aws/bedrock/agentcore/gateway";
   "/aws/lambda/customer-support"].
Definition items_to_remove : list string :=
  ["lab_config.json"; "runtime_agent"; "streamlit_app";
   ".bedrock_agentcore.yaml"; "Dockerfile"].

Section Code.
Context {W : Type} (env : Env W).

Definition boto3_client (service : string) : Prog W unit :=
  perform (Boto3Client service) (on_boto3_client env service).

(** [self.cleanup_summary[c].append(x)] *)
Definition record (c : Category) (x : string) : Prog W unit :=
  set_self (fun o =>
    mkSelf (interactive o) (region o) (append_line c x (cleanup_summary o))).

(** [config.get(key)]: [None] for a missing key; a value that is no dict has
    no [get]. *)
Definition config_get (config : json) (key : string) : Prog W jval :=
  match config with
  | JObject d => ret (default JNull (d !! key))
  | JNonObject =>
      raise (Exception "AttributeError: object has no attribute 'get'")
  end.

(** A value used as a string: sliced for a message, or passed where the SDK
    wants a string. *)
Definition as_str (v : jval) : Prog W string :=
  match v with
  | JStr s => ret s
  | _ => raise (Exception "TypeError: value is not a string")
  end.

(** One of the three parameter look-ups of [load_configuration]:
    [try: config[key] = ssm.get_parameter(...)  except: pass]. *)
Definition load_parameter (key name : string) (config : json) : Prog W json :=
  try_bare
    (v <- perform (SsmGetParameter name) (on_ssm_get_parameter env name) ;;
     match config with
     | JObject d => ret (JObject (<[key := JStr v]> d))
     | JNonObject =>
         raise (Exception "TypeError: object does not support item assignment")
     end)
    (ret config).

(** The local [config] is what the function returns, also from the handler
    of its [try]: [{}] when reading the file failed, the file's content
    when the client could not be made. *)
Definition load_configuration : Prog W json :=
  loaded <- try_except
              (ex <- path_exists "lab_config.json" ;;
               c <- (if ex : bool then read_json env "lab_config.json"
                     else ret (JObject ∅)) ;;
               ret (Some c))
              (fun _ => ret None) ;;
  match loaded with
  | None => ret (JObject ∅)
  | Some c =>
      has_ssm <- try_except (boto3_client "ssm" ;; ret true)
                            (fun _ => ret false) ;;
      if has_ssm : bool then
        c1 <- load_parameter "runtime_arn"
                "/app/customersupport/agentcore/runtime_arn" c ;;
        c2 <- load_parameter "gateway_url"
                "/app/customersupport/agentcore/gateway_url" c1 ;;
        load_parameter "pool_id" "/app/customersupport/agentcore/pool_id" c2
      else ret c
  end.

Definition cleanup_memory_resources (config : json) : Prog W bool :=
  try_except
    (perform (ImportModule "bedrock_agentcore.memory")
             (on_import env "bedrock_agentcore.memory") ;;
     rg <- attr region ;;
     perform (MemoryClientNew rg) (on_memory_client_new env rg) ;;
     memory_id <- config_get config "memory_id" ;;
     (if truthy memory_id then
        id <- as_str memory_id ;;
        try_except
          (perform (DeleteMemory id) (on_delete_memory env id) ;;
           record Memory ("Memory " +:+ String.substring 0 16 id +:+ "... deleted"))
          (fun e =>
             record Memory ("Memory cleanup warning: " +:+ String.substring 0 50 e))
      else ret tt) ;;
     ret true)
    (fun _ => ret true).   (* Continue anyway *)

Definition cleanup_runtime_resources (config : json) : Prog W bool :=
  try_except
    (runtime_arn <- config_get config "runtime_arn" ;;
     (if truthy runtime_arn then
        arn <- as_str runtime_arn ;;
        (* Delete runtime: the delete call itself is commented out *)
        try_except
          (boto3_client "bedrock-agentcore-control" ;;
           record Runtime ("Runtime " +:+ last_segment arn +:+ " deleted"))
          (fun e =>
             record Runtime ("Runtime cleanup warning: " +:+ String.substring 0 50 e)) ;;
        (* Delete ECR repository *)
        try_except
          (boto3_client "ecr" ;;
           perform (EcrDeleteRepository ecr_repo_name)
                   (on_ecr_delete_repository env ecr_repo_name) ;;
           record Runtime ("ECR repository " +:+ ecr_repo_name +:+ " deleted"))
          (fun _ => ret tt)
      else ret tt) ;;
     ret true)
    (fun _ => ret true).

Definition cleanup_gateway_resources (config : json) : Prog W bool :=
  try_except
    (gateway_url <- config_get config "gateway_url" ;;
     (if truthy gateway_url then
        as_str gateway_url ;;
        (* the target and gateway delete calls are commented out *)
        try_except
          (boto3_client "bedrock-agentcore-control" ;;
           record Gateway "Gateway and targets deleted")
          (fun e =>
             record Gateway ("Gateway cleanup warning: " +:+ String.substring 0 50 e))
      else ret tt) ;;
     ret true)
    (fun _ => ret true).

(** The four blocks of [cleanup_security_resources], each a [try] of its
    own: IAM role, SSM parameters, Cognito, Secrets Manager. *)
Definition cleanup_iam_role : Prog W unit :=
  try_except
    (boto3_client "iam" ;;
     (* Detach policies *)
     try_bare
       (attached <- perform (IamListAttachedRolePolicies iam_role_name)
                      (on_iam_list_attached_role_policies env iam_role_name) ;;
        for_each attached (fun arn =>
          perform (IamDetachRolePolicy iam_role_name arn)
                  (on_iam_detach_role_policy env iam_role_name arn)))
       (ret tt) ;;
     (* Delete inline policies *)
     try_bare
       (inline <- perform (IamListRolePolicies iam_role_name)
                    (on_iam_list_role_policies env iam_role_name) ;;
        for_each inline (fun name =>
          perform (IamDeleteRolePolicy iam_role_name name)
                  (on_iam_delete_role_policy env iam_role_name name)))
       (ret tt) ;;
     (* Delete role *)
     perform (IamDeleteRole iam_role_name) (on_iam_delete_role env iam_role_name) ;;
     record Security ("IAM role " +:+ iam_role_name +:+ " deleted"))
    (fun _ => ret tt).

Definition cleanup_ssm_parameters : Prog W unit :=
  try_except
    (boto3_client "ssm" ;;
     for_each ssm_parameters (fun param =>
       try_bare
         (perform (SsmDeleteParameter param) (on_ssm_delete_parameter env param) ;;
          record Security ("SSM parameter " +:+ param +:+ " deleted"))
         (ret tt)))
    (fun _ => ret tt).

Definition cleanup_cognito (config : json) : Prog W unit :=
  try_except
    (boto3_client "cognito-idp" ;;
     pool_id <- config_get config "pool_id" ;;
     if truthy pool_id then
       (* Delete users *)
       try_bare
         (pool <- as_str pool_id ;;
          users <- perform (CognitoListUsers pool)
                     (on_cognito_list_users env pool) ;;
          for_each users (fun username =>
            try_bare
              (perform (CognitoAdminDeleteUser pool username)
                       (on_cognito_admin_delete_user env pool username))
              (ret tt)))
         (ret tt) ;;
       (* Delete user pool *)
       try_except
         (pool <- as_str pool_id ;;
          perform (CognitoDeleteUserPool pool)
                  (on_cognito_delete_user_pool env pool) ;;
          record Security "Cognito user pool deleted")
         (fun _ => ret tt)
     else ret tt)
    (fun _ => ret tt).

Definition cleanup_secrets : Prog W unit :=
  try_except
    (boto3_client "secretsmanager" ;;
     try_bare
       (perform (SecretsDeleteSecret secret_name)
                (on_secrets_delete_secret env secret_name) ;;
        record Security ("Secret " +:+ secret_name +:+ " deleted"))
       (ret tt))
    (fun _ => ret tt).

Definition cleanup_security_resources (config : json) : Prog W bool :=
  try_except
    (cleanup_iam_role ;;
     cleanup_ssm_parameters ;;
     cleanup_cognito config ;;
     cleanup_secrets ;;
     ret true)
    (fun _ => ret true).

Definition cleanup_observability_resources : Prog W bool :=
  try_except
    (boto3_client "logs" ;;
     for_each log_group_prefixes (fun prefix =>
       try_except
         (groups <- perform (LogsDescribeLogGroups prefix)
                      (on_logs_describe_log_groups env prefix) ;;
          for_each groups (fun name =>
            try_except
              (perform (LogsDeleteLogGroup name)
                       (on_logs_delete_log_group env name) ;;
               record Observability ("Log group " +:+ name +:+ " deleted"))
              (fun _ => ret tt)))
         (fun _ => ret tt)) ;;
     ret true)
    (fun _ => ret true).

Definition cleanup_local_files : Prog W bool :=
  try_except
    (for_each items_to_remove (fun item =>
       try_except
         (ex <- path_exists item ;;
          if ex : bool then
            isf <- path_isfile item ;;
            if isf : bool then
              os_remove env item ;;
              record Files ("File " +:+ item +:+ " deleted")
            else
              isd <- path_isdir item ;;
              if isd : bool then
                shutil_rmtree env item ;;
                record Files ("Directory " +:+ item +:+ " deleted")
              else ret tt
          else ret tt)
         (fun _ => ret tt)) ;;
     ret true)
    (fun _ => ret true).

(** The six steps of [run], in its [try] block. *)
Definition sweep : Prog W bool :=
  config <- load_configuration ;;
  cleanup_memory_resources config ;;
  cleanup_runtime_resources config ;;
  cleanup_gateway_resources config ;;
  cleanup_security_resources config ;;
  cleanup_observability_resources ;;
  cleanup_local_files ;;
  ret true.

Definition confirm_prompt : string := "Do you want to proceed with cleanup?".

Definition run : Prog W bool :=
  inter <- attr interactive ;;
  go <- (if inter : bool
         then perform (ConfirmAsk confirm_prompt)
                      (on_confirm_ask env confirm_prompt)
         else ret true) ;;
  if negb go then ret false   (* Cleanup cancelled by user *)
  else try_except sweep (fun _ => ret false).
End Code.

(** The calls that delete a resource. *)
Definition is_deletion (c : Call) : bool :=
  match c with
  | DeleteMemory _ | EcrDeleteRepository _ | IamDetachRolePolicy _ _
  | IamDeleteRolePolicy _ _ | IamDeleteRole _ | SsmDeleteParameter _
  | CognitoAdminDeleteUser _ _ | CognitoDeleteUserPool _
  | SecretsDeleteSecret _ | LogsDeleteLogGroup _ | OsRemove _
  | ShutilRmtree _ => true
  | _ => false
  end.

Definition failed_deletions (t : list Event) : list Call :=
  omap (fun ev => match ev with
                  | Called c false => if is_deletion c then Some c else None
                  | _ => None
                  end) t.

End Lab6.

(** ** The orchestrators' view of a lab

    [run_workshop.py] and [Implement_labs.py] see a lab as something to
    construct and to run, and the user as the answers to [Confirm.ask].
    Either may return, raise an error, or be interrupted from the keyboard. *)

Module Stage.

Inductive signal (A : Type) : Type :=
| Value (a : A)
| Error (msg : string)
| Interrupt.
Arguments Value {A} a.
Arguments Error {A} msg.
Arguments Interrupt {A}.

Definition throw {A} (r : signal A) : outcome A :=
  match r with
  | Value a => Return a
  | Error msg => Raise (Exception msg)
  | Interrupt => Raise KeyboardInterrupt
  end.

Definition success_of {B} (r : signal (bool * B)) : signal bool :=
  match r with
  | Value x => Value x.1
  | Error msg => Error msg
  | Interrupt => Interrupt
  end.

Inductive Event : Type :=
| Constructed (lab : nat) (result : signal unit)
| Ran (lab : nat) (result : signal bool)
| Asked (prompt : string) (answer : signal bool)
| Checked (requirement : string) (passed : bool)
| Paused (secs : nat).

Set Implicit Arguments.
Record Env (W : Type) : Type := {
  (* [LabNImplementation(interactive=b)] *)
  lab_new : nat -> bool -> W -> signal unit * W;
  (* [lab.run()] on the object made last *)
  lab_run : nat -> W -> signal bool * W;
  (* import, construct with an input, run; the result and the attributes of
     the object afterwards *)
  lab_session :
    nat -> bool -> option string -> W -> signal (bool * gmap string string) * W;
  confirm_ask : string -> W -> signal bool * W;
  prerequisite : string -> W -> bool * W;
}.
Unset Implicit Arguments.

Record State (W Obj : Type) : Type := mkState {
  world : W;
  self : Obj;
}.
Arguments mkState {W Obj} world self.
Arguments world {W Obj} s.
Arguments self {W Obj} s.

Section Operations.
Context {W Obj : Type}.

Definition interact {A} (ev : signal A -> Event) (f : W -> signal A * W)
  : M Event (State W Obj) A := fun st =>
  let '(r, w) := f (world st) in (throw r, mkState w (self st), [ev r]).

Definition attr {A} (f : Obj -> A) : M Event (State W Obj) A :=
  gets (fun st => f (self st)).
Definition set_self (f : Obj -> Obj) : M Event (State W Obj) unit :=
  modify (fun st => mkState (world st) (f (self st))).

(** [time.sleep(secs)] *)
Definition pause (secs : nat) : M Event (State W Obj) unit := emit (Paused secs).

(** [exit(code)], [sys.exit(code)] *)
Definition exit {A} (code : nat) : M Event (State W Obj) A :=
  raise (SystemExit code).
End Operations.

(** The status the process ends with.  A [main] that returns ends with 0; an
    exception that leaves it ends the interpreter with 1, an interrupt
    with 130. *)
Definition exit_code {A} (o : outcome A) : nat :=
  match o with
  | Return _ => 0
  | Raise (SystemExit code) => code
  | Raise (Exception _) => 1
  | Raise KeyboardInterrupt => 130
  end.

(** The status the specification asks of an entry point, by the outcome of
    the run it selected: 0 on success, 1 on failure, error or interrupt. *)
Definition expected_status (o : outcome bool) : nat :=
  match o with
  | Return true => 0
  | Return false => 1
  | Raise (Exception _) => 1
  | Raise KeyboardInterrupt => 1
  | Raise (SystemExit code) => code
  end.

(** The status of an entry point that looks at errors only: 1 when an error
    escapes the run, 0 otherwise, also after a failure or an interrupt. *)
Definition lenient_status {A} (o : outcome A) : nat :=
  match o with
  | Return _ => 0
  | Raise (Exception _) => 1
  | Raise KeyboardInterrupt => 0
  | Raise (SystemExit code) => code
  end.

Definition string_of_nat (n : nat) : string :=
  NilEmpty.string_of_uint (Nat.to_uint n).

(** The labs that were run, with what each answered, in order. *)
Fixpoint lab_runs (t : list Event) : list (nat * signal bool) :=
  match t with
  | [] => []
  | Ran n r :: t' => (n, r) :: lab_runs t'
  | _ :: t' => lab_runs t'
  end.

(** Fail-fast: a lab that did not return [True] is the last one run. *)
Fixpoint fail_fast (runs : list (nat * signal bool)) : Prop :=
  match runs with
  | [] => True
  | (_, r) :: rest => (r = Value true \/ rest = []) /\ fail_fast rest
  end.

End Stage.

(** ** The workshop runner ([run_workshop.py]) *)

Module RunWorkshop.
Import Stage.

Record Self : Type := mkSelf {
  interactive : bool;
  labs_completed : list string;
  labs_failed : list string;
}.

(** [WorkshopRunner.__init__] *)
Definition init (interactive : bool) : Self := mkSelf interactive [] [].

Definition Prog (W A : Type) : Type := M Event (State W Self) A.

Definition lab_title (lab_num : nat) (lab_name : string) : string :=
  "Lab " +:+ string_of_nat lab_num +:+ ": " +:+ lab_name.

Record Args : Type := mkArgs {
  lab : option nat;          (* [--lab], one of 1, 2, 4, 5, 6 *)
  all : bool;                (* [--all] *)
  non_interactive : bool;    (* [--non-interactive] *)
  argc : nat;                (* [len(sys.argv)] *)
}.

(** The table of [run_single_lab]. *)
Definition labs_table (lab_num : nat) : option string :=
  match lab_num with
  | 1 => Some "Create Agent Prototype"
  | 2 => Some "Add Memory & Personalization"
  | 4 => Some "Deploy to Production Runtime"
  | 5 => Some "Build Customer-Facing Frontend"
  | 6 => Some "Complete Cleanup"
  | _ => None
  end.

Section Code.
Context {W : Type} (env : Env W).

Definition confirm (prompt : string) : Prog W bool :=
  interact (Asked prompt) (confirm_ask env prompt).
Definition construct (lab_num : nat) (inter : bool) : Prog W unit :=
  interact (Constructed lab_num) (lab_new env lab_num inter).

Definition completed (x : string) : Prog W unit :=
  set_self (fun o => mkSelf (interactive o) (labs_completed o ++ [x]) (labs_failed o)).
Definition failed (x : string) : Prog W unit :=
  set_self (fun o => mkSelf (interactive o) (labs_completed o) (labs_failed o ++ [x])).

Definition run_lab (lab_num : nat) (lab_name : string) : Prog W bool :=
  try_except
    (success <- interact (Ran lab_num) (lab_run env lab_num) ;;
     inter <- attr interactive ;;
     if success : bool then
       completed (lab_title lab_num lab_name) ;;
       if inter && (lab_num <? 5)%nat then
         go <- confirm ("Continue to Lab " +:+ string_of_nat (lab_num + 1) +:+ "?") ;;
         if negb go then ret false   (* Workshop paused by user *)
         else ret success
       else ret success
     else
       failed (lab_title lab_num lab_name) ;;
       if inter : bool then
         go <- confirm "Continue despite failure?" ;;
         if negb go then ret false
         else ret success
       else ret success)
    (fun _ =>
       failed (lab_title lab_num lab_name) ;;
       ret false).

Definition run_all_labs : Prog W bool :=
  inter <- attr interactive ;;
  go <- (if inter : bool then confirm "Ready to start the workshop?"
         else ret true) ;;
  if negb go then ret false else   (* Workshop cancelled *)
  (* Lab 1: Agent Prototype *)
  construct 1 false ;;
  ok1 <- run_lab 1 "Create Agent Prototype" ;;
  if negb ok1 then ret false else
  pause 2 ;;
  (* Lab 2: Memory & Personalization *)
  construct 2 false ;;
  ok2 <- run_lab 2 "Add Memory & Personalization" ;;
  if negb ok2 then ret false else
  pause 2 ;;
  (* Lab 3 is separate (Gateway implementation) *)
  pause 1 ;;
  (* Lab 4: Production Runtime *)
  construct 4 false ;;
  ok4 <- run_lab 4 "Deploy to Production Runtime" ;;
  if negb ok4 then ret false else
  pause 2 ;;
  (* Lab 5: Frontend Application *)
  construct 5 false ;;
  ok5 <- run_lab 5 "Build Customer-Facing Frontend" ;;
  if negb ok5 then ret false else
  (* Ask about cleanup *)
  (if inter : bool then
     clean <- confirm "Run Lab 6 to clean up all resources?" ;;
     if clean : bool then
       pause 2 ;;
       construct 6 true ;;
       run_lab 6 "Complete Cleanup" ;;
       ret tt
     else ret tt
   else ret tt) ;;
  ret true.

Definition run_single_lab (lab_num : nat) : Prog W bool :=
  match labs_table lab_num with
  | None => ret false              (* Error: Lab not found *)
  | Some lab_name =>
      construct lab_num true ;;
      run_lab lab_num lab_name
  end.

(** What [main] selects inside its [try]: [Some success] of a run, [None]
    when it only prints the help. *)
Definition dispatch (args : Args) : Prog W (option bool) :=
  match lab args with
  | Some (S n) =>
      success <- run_single_lab (S n) ;;
      ret (Some success)
  | _ =>
      if all args || (argc args =? 1)%nat then
        success <- run_all_labs ;;
        ret (Some success)
      else ret None
  end.

Definition main (args : Args) : Prog W unit :=
  set_self (fun _ => init (negb (non_interactive args))) ;;
  try_catch
    (selected <- dispatch args ;;
     match selected with
     | Some success => exit (if success : bool then 0 else 1)
     | None => ret tt
     end)
    (fun e =>
       match e with
       | KeyboardInterrupt => Some (exit 1)
       | Exception _ => Some (exit 1)
       | SystemExit _ => None
       end).
End Code.

End RunWorkshop.

(** ** The lab orchestrator ([Implement_labs.py]) *)

Module ImplementLabs.
Import Stage.

(** One entry of [lab_results]: the success flag and, after a success, the
    attributes of the lab object that the entry keeps. *)
Record LabResult : Type := mkResult {
  success : bool;
  outputs : gmap string string;
}.

Record Self : Type := mkSelf {
  interactive : bool;
  lab_results : gmap string LabResult;
}.

(** [LabOrchestrator.__init__] *)
Definition init (interactive : bool) : Self := mkSelf interactive ∅.

Definition Prog (W A : Type) : Type := M Event (State W Self) A.

Definition lab_key (n : nat) : string := "lab" +:+ string_of_nat n.

(** The attributes [run_lab_n] stores. *)
Definition output_keys (n : nat) : list string :=
  match n with
  | 1 => ["agent"]
  | 2 => ["memory_id"; "agent"]
  | 3 => ["gateway_id"; "gateway_url"; "agent"]
  | 4 => ["runtime_arn"; "runtime"]
  | 5 => ["streamlit_url"]
  | _ => []
  end.

(** What [run_lab_n] hands to the constructor:
    [self.lab_results.get('lab2', {}).get('memory_id')] and the like. *)
Definition input_of (n : nat) (results : gmap string LabResult)
  : option string :=
  match n with
  | 3 => r ← results !! "lab2"; outputs r !! "memory_id"
  | 4 => r ← results !! "lab3"; outputs r !! "gateway_id"
  | 5 => r ← results !! "lab4"; outputs r !! "runtime_arn"
  | _ => None
  end.

Definition kept (n : nat) (ok : bool) (attrs : gmap string string)
  : gmap string string :=
  if ok then filter (fun kv => kv.1 ∈ output_keys n) attrs else ∅.

Record Args : Type := mkArgs {
  cleanup : bool;            (* [--cleanup] *)
  all : bool;                (* [--all] *)
  lab : option nat;          (* [--lab], one of 1 to 5 *)
  interactive_flag : bool;   (* [--interactive] *)
}.

(** The list of [run_all_labs]: the names, and the number [n] of the method
    [run_lab_n] each goes with. *)
Definition labs : list (string * nat) :=
  [("Lab 1: Agent Prototype", 1); ("Lab 2: Memory", 2); ("Lab 3: Gateway", 3);
   ("Lab 4: Runtime", 4); ("Lab 5: Frontend", 5)].

(** [labs[-1][0]] *)
Definition last_name (l : list (string * nat)) : string :=
  match last l with Some x => x.1 | None => EmptyString end.

Section Code.
Context {W : Type} (env : Env W).

Definition confirm (prompt : string) : Prog W bool :=
  interact (Asked prompt) (confirm_ask env prompt).

Definition check (requirement : string) : Prog W bool := fun st =>
  let '(passed, w) := prerequisite env requirement (world st) in
  (Return passed, mkState w (self st), [Checked requirement passed]).

Definition check_prerequisites : Prog W bool :=
  p1 <- check "Python 3.10+" ;;
  p2 <- check "AWS Credentials" ;;
  p3 <- check "Required Packages" ;;
  p4 <- check "Docker/Finch" ;;
  if negb (p1 && p2 && p3 && p4) then
    inter <- attr interactive ;;
    if inter : bool then
      go <- confirm "Do you want to continue anyway?" ;;
      if negb go then ret false else ret true
    else ret true
  else ret true.

(** [run_lab_1] to [run_lab_5], which differ in the class they import, the
    input they pass and the attributes they keep. *)
Definition run_lab_n (n : nat) : Prog W bool :=
  try_except
    (inter <- attr interactive ;;
     input <- attr (fun o => input_of n (lab_results o)) ;;
     r <- interact (fun r => Ran n (success_of r))
                   (lab_session env n inter input) ;;
     set_self (fun o =>
       mkSelf (interactive o)
              (<[lab_key n := mkResult r.1 (kept n r.1 r.2)]> (lab_results o))) ;;
     ret r.1)
    (fun _ => ret false).

Definition run_lab_1 : Prog W bool := run_lab_n 1.
Definition run_lab_2 : Prog W bool := run_lab_n 2.
Definition run_lab_3 : Prog W bool := run_lab_n 3.
Definition run_lab_4 : Prog W bool := run_lab_n 4.
Definition run_lab_5 : Prog W bool := run_lab_n 5.

Definition run_cleanup : Prog W bool :=
  inter <- attr interactive ;;
  go <- (if inter : bool then confirm "Are you sure you want to continue?"
         else ret true) ;;
  if negb go then ret false else   (* Cleanup cancelled. *)
  try_except
    (r <- interact (fun r => Ran 6 (success_of r))
                   (lab_session env 6 inter None) ;;
     ret r.1)
    (fun _ => ret false).

(** The [for] loop of [run_all_labs] over a list of labs; [final] is the
    name of the last lab of the whole list. *)
Fixpoint run_labs (final : string) (l : list (string * nat)) : Prog W unit :=
  match l with
  | [] => ret tt
  | (lab_name, n) :: rest =>
      ok <- run_lab_n n ;;
      inter <- attr interactive ;;
      stop <- (if negb ok then
                 if inter : bool then
                   go <- confirm "Continue to next lab anyway?" ;;
                   ret (negb go)
                 else ret true   (* Stopping execution due to failure. *)
               else ret false) ;;
      if stop : bool then ret tt else
      stop' <- (if inter && negb (String.eqb lab_name final) then
                  go <- confirm (lab_name +:+ " complete. Continue to next lab?") ;;
                  ret (negb go)
                else ret false) ;;
      if stop' : bool then ret tt else
      pause 2 ;;
      run_labs final rest
  end.

Definition run_all_labs : Prog W unit :=
  ok <- check_prerequisites ;;
  if negb ok then ret tt else      (* Prerequisites check failed. Exiting. *)
  inter <- attr interactive ;;
  go <- (if inter : bool then confirm "Ready to start Lab 1?" else ret true) ;;
  if negb go then ret tt else
  run_labs (last_name labs) labs.

(** The [all(...)] of [show_summary]. *)
Definition all_success (results : gmap string LabResult) : bool :=
  bool_decide (map_Forall (fun _ r => success r = true) results).

Definition main (args : Args) : Prog W unit :=
  set_self (fun _ => init (interactive_flag args)) ;;
  try_catch
    (if cleanup args then run_cleanup ;; ret tt
     else if all args then run_all_labs
     else match lab args with
          | Some 1 => run_lab_1 ;; ret tt
          | Some 2 => run_lab_2 ;; ret tt
          | Some 3 => run_lab_3 ;; ret tt
          | Some 4 => run_lab_4 ;; ret tt
          | Some 5 => run_lab_5 ;; ret tt
          | _ => ret tt            (* [--lab] outside 1..5, or the help *)
          end)
    (fun e =>
       match e with
       | KeyboardInterrupt => Some (exit 0)
       | Exception _ => Some (exit 1)
       | SystemExit _ => None
       end).
End Code.

End ImplementLabs.

(** ** Concrete environments

    Two small environments on which the programs above can be run: a
    simulated account, and a scripted sequence of labs and answers. *)

Module Sim.

(** A simulated account: the SSM parameters, the gateways (id to URL) and
    the memories it holds.  Everything else the scripts look for (IAM role,
    ECR repository, user pool, secret, log groups) is absent from it. *)
Record Cloud : Type := mkCloud {
  params : gmap string string;
  gateways : gmap string string;
  memories : list string;
}.

Definition empty_cloud : Cloud := mkCloud ∅ ∅ [].

Definition answer {A} (down : bool) (r : reply A) (w w' : Cloud)
  : reply A * Cloud :=
  if down then (Err "EndpointConnectionError", w) else (r, w').

Definition absent {A} (down : bool) (what : string) (w : Cloud)
  : reply A * Cloud :=
  answer down (Err what) w w.

(** [account down yes]: the calls in [down] fail with a connection error, the
    user answers [yes] to every prompt. *)
Definition account (down : Call -> bool) (yes : bool) : Env Cloud := {|
  on_import name w := answer (down (ImportModule name)) (Ok tt) w w;
  on_boto3_client service w := answer (down (Boto3Client service)) (Ok tt) w w;
  on_confirm_ask prompt w := answer (down (ConfirmAsk prompt)) (Ok yes) w w;
  on_ssm_get_parameter name w :=
    answer (down (SsmGetParameter name))
      (match params w !! name with
       | Some v => Ok v
       | None => Err "ParameterNotFound"
       end) w w;
  on_ssm_put_parameter name value w :=
    answer (down (SsmPutParameter name value)) (Ok tt) w
      (mkCloud (<[name := value]> (params w)) (gateways w) (memories w));
  on_ssm_delete_parameter name w :=
    answer (down (SsmDeleteParameter name))
      (match params w !! name with
       | Some _ => Ok tt
       | None => Err "ParameterNotFound"
       end) w
      (mkCloud (delete name (params w)) (gateways w) (memories w));
  on_get_gateway id w :=
    answer (down (GetGateway id))
      (match gateways w !! id with
       | Some url => Ok url
       | None => Err "ResourceNotFoundException"
       end) w w;
  on_create_gateway name role cid durl w :=
    let id := "gw-" +:+ Stage.string_of_nat (size (gateways w)) in
    let url := "https://" +:+ id +:+ ".gateway.example/mcp" in
    answer (down (CreateGateway name role cid durl)) (Ok (id, url)) w
      (mkCloud (params w) (<[id := url]> (gateways w)) (memories w));
  on_create_gateway_target gid arn w :=
    answer (down (CreateGatewayTarget gid arn))
      (match gid ≫= (fun id => gateways w !! id) with
       | Some _ => Ok "target-0"
       | None => Err "ResourceNotFoundException"
       end) w w;
  on_memory_client_new rg w := answer (down (MemoryClientNew rg)) (Ok tt) w w;
  on_create_memory_and_wait name w :=
    let id := "mem-" +:+ Stage.string_of_nat (length (memories w)) in
    answer (down (CreateMemoryAndWait name)) (Ok id) w
      (mkCloud (params w) (gateways w) (memories w ++ [id]));
  on_create_event mid actor session w :=
    answer (down (CreateEvent mid actor session)) (Ok tt) w w;
  on_retrieve_memories mid ns w :=
    answer (down (RetrieveMemories mid ns))
      (Ok [MemDict (ContentDict (Some "Prefers ThinkPad laptops"))]) w w;
  on_memory_hooks_new mid w := answer (down (MemoryHooksNew mid)) (Ok tt) w w;
  on_delete_memory id w :=
    answer (down (DeleteMemory id))
      (if bool_decide (id ∈ memories w) then Ok tt
       else Err "ResourceNotFoundException") w
      (mkCloud (params w) (gateways w)
               (List.filter (fun m => negb (String.eqb m id)) (memories w)));
  on_bedrock_model_new w := answer (down BedrockModelNew) (Ok tt) w w;
  on_agent_build w := answer (down AgentBuild) (Ok tt) w w;
  on_agent_invoke q w := answer (down (AgentInvoke q)) (Ok tt) w w;
  on_iam_get_role name w := absent (down (IamGetRole name)) "NoSuchEntity" w;
  on_iam_list_attached_role_policies name w :=
    absent (down (IamListAttachedRolePolicies name)) "NoSuchEntity" w;
  on_iam_detach_role_policy name arn w :=
    absent (down (IamDetachRolePolicy name arn)) "NoSuchEntity" w;
  on_iam_list_role_policies name w :=
    absent (down (IamListRolePolicies name)) "NoSuchEntity" w;
  on_iam_delete_role_policy name policy w :=
    absent (down (IamDeleteRolePolicy name policy)) "NoSuchEntity" w;
  on_iam_delete_role name w :=
    absent (down (IamDeleteRole name)) "NoSuchEntity" w;
  on_ecr_delete_repository name w :=
    absent (down (EcrDeleteRepository name)) "RepositoryNotFoundException" w;
  on_cognito_list_users pool w :=
    absent (down (CognitoListUsers pool)) "ResourceNotFoundException" w;
  on_cognito_admin_delete_user pool user w :=
    absent (down (CognitoAdminDeleteUser pool user)) "ResourceNotFoundException" w;
  on_cognito_delete_user_pool pool w :=
    absent (down (CognitoDeleteUserPool pool)) "ResourceNotFoundException" w;
  on_secrets_delete_secret id w :=
    absent (down (SecretsDeleteSecret id)) "ResourceNotFoundException" w;
  on_logs_describe_log_groups prefix w :=
    answer (down (LogsDescribeLogGroups prefix)) (Ok []) w w;
  on_logs_delete_log_group name w :=
    absent (down (LogsDeleteLogGroup name)) "ResourceNotFoundException" w;
  on_open_read p w := answer (down (OpenRead p)) (Ok tt) w w;
  on_open_write p w := answer (down (OpenWrite p)) (Ok tt) w w;
  on_os_remove p w := answer (down (OsRemove p)) (Ok tt) w w;
  on_shutil_rmtree p w := answer (down (ShutilRmtree p)) (Ok tt) w w;
|}.

(** Nothing is down. *)
Definition up (c : Call) : bool := false.

(** A fresh process in a directory [d]: the state a lab object [o] starts
    from. *)
Definition start {Obj} (w : Cloud) (d : gmap string node) (o : Obj)
  : State Cloud Obj :=
  Facade.mkState w d o.

(** A scripted workshop: lab [n] answers [results n], the user answers
    [answers prompt], every prerequisite holds. *)
Definition scripted (results : nat -> Stage.signal bool)
  (answers : string -> Stage.signal bool) : Stage.Env unit := {|
  Stage.lab_new n inter w := (Stage.Value tt, w);
  Stage.lab_run n w := (results n, w);
  Stage.lab_session n inter input w :=
    (match results n with
     | Stage.Value b => Stage.Value (b, ∅)
     | Stage.Error msg => Stage.Error msg
     | Stage.Interrupt => Stage.Interrupt
     end, w);
  Stage.confirm_ask prompt w := (answers prompt, w);
  Stage.prerequisite requirement w := (true, w);
|}.

End Sim.

(** ** The inputs of the examples below *)

Module Cases.

(** Accounts in which one kind of call is down. *)
Definition all_up : Env Sim.Cloud := Sim.account Sim.up true.
Definition target_down : Env Sim.Cloud := Sim.account Lab3.is_target_call true.
Definition gateway_down : Env Sim.Cloud := Sim.account Lab3.is_gateway_call true.

(** The gateway stage in an empty directory of an empty account, with no
    [memory_id]; and the states its first two steps lead to there (the same
    under [target_down], [gateway_down] and [all_up], which differ later). *)
Definition lab3_fresh : State Sim.Cloud Lab3.Self :=
  Sim.start Sim.empty_cloud ∅ (Lab3.init false None "us-east-1").
Definition lab3_at_step2 : State Sim.Cloud Lab3.Self :=
  state_of (Lab3.get_or_create_cognito all_up lab3_fresh).
Definition lab3_at_step3 : State Sim.Cloud Lab3.Self :=
  state_of (Lab3.create_gateway all_up lab3_at_step2).

(** The memory stage in the same place, and the state it is in once
    [create_memory_resource] has run. *)
Definition lab2_fresh : State Sim.Cloud Lab2.Self :=
  Sim.start Sim.empty_cloud ∅ (Lab2.init false "us-east-1" "session-0").
Definition lab2_created : State Sim.Cloud Lab2.Self :=
  state_of (Lab2.create_memory_resource all_up lab2_fresh).

(** The memory stage run again, in a directory where the gateway stage has
    left its keys in [lab_config.json]. *)
Definition config_after_gateway : gmap string jval :=
  {[ "gateway_id" := JStr "gw-0";
     "gateway_url" := JStr "https://gw-0.gateway.example/mcp" ]}.
Definition lab2_rerun : State Sim.Cloud Lab2.Self :=
  Sim.start Sim.empty_cloud
    {[ "lab_config.json" := File (Some (JObject config_after_gateway)) ]}
    (Lab2.init false "us-east-1" "session-0").

(** The cleanup stage, not interactive, in an empty directory of the empty
    account: every resource it looks for is already gone. *)
Definition lab6_fresh : State Sim.Cloud Lab6.Self :=
  Sim.start Sim.empty_cloud ∅ (Lab6.init false "us-east-1").

(** The cleanup stage, interactive; and an account whose user answers no. *)
Definition lab6_asking : State Sim.Cloud Lab6.Self :=
  Sim.start Sim.empty_cloud ∅ (Lab6.init true "us-east-1").
Definition user_declines : Env Sim.Cloud := Sim.account Sim.up false.

(** The cleanup stage in an account where [delete_memory] is down, with a
    memory id in its configuration file. *)
Definition memory_down : Env Sim.Cloud :=
  Sim.account (fun c => match c with DeleteMemory _ => true | _ => false end)
              true.
Definition config_with_memory : json :=
  JObject {[ "memory_id" := JStr "mem-0" ]}.

(** A workshop in which lab 1 returns [False], or is interrupted, and every
    other lab returns [True]; the user answers yes to every prompt. *)
Definition lab1_fails : Stage.Env unit :=
  Sim.scripted (fun n => Stage.Value (negb (n =? 1)%nat))
               (fun _ => Stage.Value true).
Definition lab1_interrupted : Stage.Env unit :=
  Sim.scripted (fun n => if (n =? 1)%nat then Stage.Interrupt
                         else Stage.Value true)
               (fun _ => Stage.Value true).

(** [python Implement_labs.py --lab 1] *)
Definition only_lab1 : ImplementLabs.Args :=
  ImplementLabs.mkArgs false false (Some 1) false.

Definition lab4_fresh : State Sim.Cloud Lab4.Self :=
  Sim.start Sim.empty_cloud ∅ (Lab4.init false None "us-east-1").

End Cases.

(** * Properties *)

(** ** Rules for outcome triples *)

Module PyFacts.

(** Case analysis on the condition of an [if] of the goal. *)
Ltac case_if :=
  match goal with
  | |- context [if ?b then _ else _] => destruct b eqn:?
  end.

Section Rules.
Context {Ev S : Type}.

Lemma triple_ret {A} (a : A) (Q : A -> Prop) E :
  Q a -> triple (ret (Ev:=Ev) (S:=S) a) Q E.
Proof. intros H s. exact H. Qed.

Lemma triple_raise {A} e (Q : A -> Prop) (E : exn -> Prop) :
  E e -> triple (raise (Ev:=Ev) (S:=S) e) Q E.
Proof. intros H s. exact H. Qed.

Lemma triple_gets {A} (f : S -> A) (Q : A -> Prop) E :
  (forall s, Q (f s)) -> triple (gets (Ev:=Ev) f) Q E.
Proof. intros H s. apply H. Qed.

Lemma triple_modify f (Q : unit -> Prop) E :
  Q tt -> triple (modify (Ev:=Ev) (S:=S) f) Q E.
Proof. intros H s. exact H. Qed.

Lemma triple_emit ev (Q : unit -> Prop) E :
  Q tt -> triple (emit (Ev:=Ev) (S:=S) ev) Q E.
Proof. intros H s. exact H. Qed.

Lemma triple_bind {A B} (m : M Ev S A) (f : A -> M Ev S B) Q' Q E :
  triple m Q' E -> (forall a, Q' a -> triple (f a) Q E) ->
  triple (bind m f) Q E.
Proof.
  intros Hm Hf s. specialize (Hm s). unfold bind, outcome_of in *.
  destruct (m s) as [[[a|e] s1] t1]; simpl in *; [|exact Hm].
  specialize (Hf a Hm s1). destruct (f a s1) as [[o s2] t2]. exact Hf.
Qed.

Lemma triple_try_except {A} (m : M Ev S A) h Q E' E :
  triple m Q E' ->
  (forall msg, E' (Exception msg) -> triple (h msg) Q E) ->
  (forall e, E' e -> ~ is_Exception e -> E e) ->
  triple (try_except m h) Q E.
Proof.
  intros Hm Hh Hpass s. specialize (Hm s). unfold try_except, outcome_of in *.
  destruct (m s) as [[[a|e] s1] t1]; simpl in *; [exact Hm|].
  destruct e as [msg| |code]; try (apply Hpass; [exact Hm|tauto]).
  specialize (Hh msg Hm s1). destruct (h msg s1) as [[o s2] t2]. exact Hh.
Qed.

Lemma triple_try_bare {A} (m : M Ev S A) h Q E' E :
  triple m Q E' -> triple h Q E -> triple (try_bare m h) Q E.
Proof.
  intros Hm Hh s. specialize (Hm s). unfold try_bare, outcome_of in *.
  destruct (m s) as [[[a|e] s1] t1]; simpl in *; [exact Hm|].
  specialize (Hh s1). destruct (h s1) as [[o s2] t2]. exact Hh.
Qed.

Lemma triple_weaken {A} (m : M Ev S A) (Q Q' : A -> Prop) (E E' : exn -> Prop) :
  triple m Q E -> (forall a, Q a -> Q' a) -> (forall e, E e -> E' e) ->
  triple m Q' E'.
Proof.
  intros Hm HQ HE s. specialize (Hm s).
  destruct (outcome_of (m s)); auto.
Qed.

Lemma triple_for_each {X} (l : list X) (body : X -> M Ev S unit) Q E :
  Q tt -> (forall x, triple (body x) (fun _ => True) E) ->
  triple (for_each l body) Q E.
Proof.
  intros HQ Hb. induction l as [|x l IH]; simpl.
  - now apply triple_ret.
  - eapply triple_bind; [apply Hb|]. intros _ _. exact IH.
Qed.

Lemma triple_always {A} (m : M Ev S A) (a : A) :
  triple m (fun x => x = a) (fun _ => False) -> always m a.
Proof.
  intros H s. specialize (H s). unfold outcome_of in H.
  destruct (m s) as [[[x|e] s'] t]; simpl in H; [subst; eauto|tauto].
Qed.

(** A handler that swallows every [Exception] turns a block that can only
    raise [Exception]s into one that raises nothing. *)
Lemma triple_swallow {A} (m : M Ev S A) (a : A) (Q : A -> Prop) :
  Q a -> triple m Q is_Exception ->
  triple (try_except m (fun _ => ret a)) Q (fun _ => False).
Proof.
  intros Ha Hm. eapply triple_try_except; [exact Hm| |].
  - intros msg _. now apply triple_ret.
  - intros e He Hn. now apply Hn.
Qed.
End Rules.

Lemma triple_perform {W Obj A} c (f : W -> reply A * W) (Q : A -> Prop)
  (E : exn -> Prop) :
  (forall a, Q a) -> (forall msg, E (Exception msg)) ->
  triple (perform (Obj:=Obj) c f) Q E.
Proof.
  intros HQ HE st. unfold perform, outcome_of.
  destruct (f (world st)) as [[a|msg] w]; simpl; [apply HQ|apply HE].
Qed.

(** Unfold the monad, leaving the programs of the lab folded. *)
Ltac monad :=
  unfold try_except, try_bare, bind, ret, raise, gets, modify, emit,
    attr, set_self, perform, outcome_of, state_of, events_of in *;
  cbn -[lookup insert delete filter] in *.

(** The scrutinee that is evaluated first: the innermost one. *)
Ltac innermost t :=
  lazymatch t with
  | context [match ?y with _ => _ end] => innermost y
  | _ => t
  end.

(** One step of symbolic execution: case analysis on what is evaluated
    next (an oracle's answer, an attribute, a test). *)
Ltac step :=
  match goal with
  | |- context [match ?x with _ => _ end] =>
      let y := innermost x in
      destruct y eqn:?; cbn -[lookup insert delete filter] in *
  end.

Ltac head t :=
  lazymatch t with
  | ?f _ => head f
  | _ => t
  end.

(** [safe] proves a triple by following the program: every bound value is
    arbitrary, every call may fail with an [Exception]. *)
Ltac safe :=
  lazymatch goal with
  | |- triple (bind _ _) _ _ =>
      eapply triple_bind with (Q' := fun _ => True); [safe | intros ? _; safe]
  | |- triple (ret _) _ _ => apply triple_ret; auto
  | |- triple (raise _) _ _ => apply triple_raise; simpl; auto
  | |- triple (perform _ _) _ _ => apply triple_perform; intros; simpl; auto
  | |- triple (gets _) _ _ => apply triple_gets; auto
  | |- triple (modify _) _ _ => apply triple_modify; auto
  | |- triple (emit _) _ _ => apply triple_emit; auto
  | |- triple (try_bare _ _) _ _ =>
      eapply triple_try_bare with (E' := fun _ => True); [safe | safe]
  | |- triple (try_except _ _) _ _ =>
      eapply triple_try_except with (E' := is_Exception);
        [safe | intros ? _; safe | intros ? ? ?; tauto]
  | |- triple (for_each _ _) _ _ =>
      apply triple_for_each; [auto | intros ?; safe]
  | |- triple (if ?b then _ else _) _ _ => destruct b; safe
  | |- triple (match ?x with _ => _ end) _ _ => destruct x; safe
  | |- triple ?m _ _ => let h := head m in unfold h; safe
  end.

End PyFacts.

(** ** Lab 2: the wait for memory processing *)

Module Lab2Facts.
Import Lab2 PyFacts.

Lemma retrieve_calls_app t1 t2 :
  retrieve_calls (t1 ++ t2) = retrieve_calls t1 + retrieve_calls t2.
Proof. unfold retrieve_calls. now rewrite List.filter_app, length_app. Qed.

Lemma sleeps_app t1 t2 : sleeps (t1 ++ t2) = sleeps t1 ++ sleeps t2.
Proof.
  induction t1 as [|[c ok|n] t1 IH]; simpl; [reflexivity|exact IH|].
  now rewrite IH.
Qed.

Section Wait.
Context {W : Type} (env : Env W).

(** The display loop touches nothing; it returns or raises an [Exception]. *)
Lemma show_memories (l : list mem_record) (st : State W Self) :
  for_each l show_memory st = (Return tt, st, [])
  \/ exists msg, for_each l show_memory st = (Raise (Exception msg), st, []).
Proof.
  induction l as [|m l IH]; simpl; [now left|].
  unfold bind. destruct m as [[| |]|]; simpl;
    try (destruct IH as [->|[msg ->]]; simpl; eauto).
  right. eauto.
Qed.

(** One turn: it never raises, asks for the memories at most once, sleeps at
    most once and then for 10 seconds, and either ends the function with
    [True] or lets the loop go on. *)
Lemma attempt_turn (retry : nat) (st : State W Self) :
  exists r st' t,
    attempt env retry st = (Return r, st', t)
    /\ (r = None \/ r = Some true)
    /\ retrieve_calls t <= 1
    /\ Forall (fun secs => secs = 10) (sleeps t)
    /\ length (sleeps t) <= 1.
Proof.
  unfold attempt, on_client, sleep.
  unfold try_except, bind, attr, gets, perform, emit, raise, ret.
  cbn -[for_each take]. destruct (memory_client (self st)); cbn -[for_each take].
  - match goal with
    | |- context [on_retrieve_memories env ?a ?b ?x] =>
        destruct (on_retrieve_memories env a b x) as [[l|msg] w]
    end; cbn -[for_each take].
    + destruct l as [|m l]; cbn -[for_each take].
      * case_if; simpl;
          do 3 eexists; (split; [reflexivity|]); simpl;
          repeat split; auto.
      * destruct (show_memories (take 3 (m :: l)) (with_world w st))
          as [H|[msg H]];
          rewrite H; simpl;
          do 3 eexists; (split; [reflexivity|]); simpl;
          repeat split; auto.
    + do 3 eexists. split; [reflexivity|]. simpl. repeat split; auto.
  - do 3 eexists. split; [reflexivity|]. simpl. repeat split; auto.
Qed.

Lemma wait_loop_true (retries : list nat) (st : State W Self) :
  exists st' t,
    wait_loop env retries st = (Return true, st', t)
    /\ retrieve_calls t <= length retries
    /\ Forall (fun secs => secs = 10) (sleeps t)
    /\ length (sleeps t) <= length retries.
Proof.
  revert st. induction retries as [|retry rest IH]; intros st; simpl.
  - do 2 eexists. split; [reflexivity|]. simpl. repeat split; auto.
  - destruct (attempt_turn retry st) as (r & st1 & t1 & Ha & Hr & Hc & Hs & Hl).
    unfold bind. rewrite Ha.
    destruct Hr as [->| ->]; simpl.
    + destruct (IH st1) as (st2 & t2 & Hw & Hc2 & Hs2 & Hl2). rewrite Hw.
      do 2 eexists. split; [reflexivity|].
      rewrite retrieve_calls_app, sleeps_app, length_app.
      repeat split; [lia|now apply Forall_app|lia].
    + do 2 eexists. split; [reflexivity|].
      rewrite app_nil_r. repeat split; [lia|exact Hs|lia].
Qed.
End Wait.

End Lab2Facts.

(** C10: [wait_for_memory_processing] returns [True] from every state and
    whatever the memory service answers: when memories are found, when every
    attempt raises and when every attempt finds nothing.  It asks for the
    memories at most 6 times, sleeps at most 6 times, and each sleep lasts 10
    seconds. *)
Theorem C10_wait_for_memory_processing_always_true
  {W : Type} (env : Env W) (st : State W Lab2.Self) :
  exists st' t,
    Lab2.wait_for_memory_processing env st = (Return true, st', t)
    /\ Lab2.retrieve_calls t <= 6
    /\ Forall (fun secs => secs = 10) (Lab2.sleeps t)
    /\ length (Lab2.sleeps t) <= 6.
Proof.
  exact (Lab2Facts.wait_loop_true env (seq 0 Lab2.max_retries) st).
Qed.

(** ** Lab 3: the gateway stage *)

Module Lab3Facts.
Import Lab3 PyFacts.

Section Gateway.
Context {W : Type} (env : Env W).

Lemma add_lambda_target_true : always (add_lambda_target env) true.
Proof. apply triple_always. unfold add_lambda_target. safe. Qed.

(** Step 4 never raises, and the first thing it does is import [strands]. *)
Lemma create_agent_with_gateway_starts (st : State W Self) :
  exists b st' ok t,
    create_agent_with_gateway env st
    = (Return b, st', Called (ImportModule "strands") ok :: t).
Proof.
  unfold create_agent_with_gateway, import_module. monad.
  repeat step; eauto 8.
Qed.

(** When the create call of [create_gateway] fails, so does the function. *)
Lemma create_gateway_critical (st : State W Self) name role cid durl :
  In (Called (CreateGateway name role cid durl) false)
     (events_of (create_gateway env st)) ->
  outcome_of (create_gateway env st) = Return false.
Proof.
  unfold create_gateway, boto3_client, ssm_get_parameter, ssm_put_parameter.
  monad. repeat step; intros H; try reflexivity;
    repeat (destruct H as [H|H]; [discriminate H || (injection H as ?; congruence)|]);
    try contradiction.
Qed.

(** [run] once steps 1 and 2 succeeded: step 3 returns [True] and step 4
    begins, whatever step 3 met. *)
Lemma run_goes_on (st s1 s2 : State W Self) t1 t2 :
  get_or_create_cognito env st = (Return true, s1, t1) ->
  create_gateway env s1 = (Return true, s2, t2) ->
  exists s3 t3 ok o s4 t4,
    add_lambda_target env s2 = (Return true, s3, t3)
    /\ run env st
       = (o, s4, t1 ++ t2 ++ t3 ++ Called (ImportModule "strands") ok :: t4).
Proof.
  intros H1 H2.
  destruct (add_lambda_target_true s2) as (s3 & t3 & H3).
  destruct (create_agent_with_gateway_starts s3) as (b & s4 & ok & t4 & H4).
  exists s3, t3, ok.
  unfold run, try_except, bind. rewrite H1. cbn. rewrite H2. cbn.
  rewrite H3, H4. cbn.
  unfold test_gateway_integration, save_config, read_json, write_json,
    path_exists.
  monad.
  repeat step;
    do 3 eexists; (split; [reflexivity|]);
    rewrite <- ?app_assoc; cbn; rewrite <- ?app_assoc; reflexivity.
Qed.

(** [run] once step 2 failed: it returns [False] there and then. *)
Lemma run_stops (st s1 s2 : State W Self) t1 t2 :
  get_or_create_cognito env st = (Return true, s1, t1) ->
  create_gateway env s1 = (Return false, s2, t2) ->
  run env st = (Return false, s2, t1 ++ t2).
Proof.
  intros H1 H2. unfold run, try_except, bind. rewrite H1. cbn. rewrite H2. cbn.
  now rewrite app_nil_r.
Qed.
End Gateway.

End Lab3Facts.

(** C9: attaching the Lambda target is not critical, creating the gateway is.
    [add_lambda_target] returns [True] from every state, whatever its calls
    answer; in [run], once authentication and the gateway are set up, the
    stage goes on to step 4 (whose first action is the import of [strands])
    after the target step.  When the [create_gateway] call of the platform
    fails, [create_gateway] returns [False], and when [create_gateway]
    returns [False], [run] returns [False] without going further. *)
Theorem C9_target_not_critical_gateway_critical {W : Type} (env : Env W) :
  always (Lab3.add_lambda_target env) true
  /\ (forall (st s1 s2 : State W Lab3.Self) t1 t2,
        Lab3.get_or_create_cognito env st = (Return true, s1, t1) ->
        Lab3.create_gateway env s1 = (Return true, s2, t2) ->
        exists s3 t3 ok o s4 t4,
          Lab3.add_lambda_target env s2 = (Return true, s3, t3)
          /\ Lab3.run env st
             = (o, s4,
                t1 ++ t2 ++ t3 ++ Called (ImportModule "strands") ok :: t4))
  /\ (forall (st : State W Lab3.Self) name role cid durl,
        In (Called (CreateGateway name role cid durl) false)
           (events_of (Lab3.create_gateway env st)) ->
        outcome_of (Lab3.create_gateway env st) = Return false)
  /\ (forall (st s1 s2 : State W Lab3.Self) t1 t2,
        Lab3.get_or_create_cognito env st = (Return true, s1, t1) ->
        Lab3.create_gateway env s1 = (Return false, s2, t2) ->
        Lab3.run env st = (Return false, s2, t1 ++ t2)).
Proof.
  split; [apply Lab3Facts.add_lambda_target_true|].
  split; [apply Lab3Facts.run_goes_on|].
  split; [apply Lab3Facts.create_gateway_critical|apply Lab3Facts.run_stops].
Qed.

(** C9 on the simulated account: with target creation down, the run goes on
    to step 4; with gateway creation down, [create_gateway] returns [False]
    and so does [run]. *)
Lemma C9_witness :
  (exists s3 t3 ok o s4 t4,
     Lab3.add_lambda_target Cases.target_down Cases.lab3_at_step3
     = (Return true, s3, t3)
     /\ Lab3.run Cases.target_down Cases.lab3_fresh
        = (o, s4,
           events_of (Lab3.get_or_create_cognito Cases.target_down Cases.lab3_fresh)
           ++ events_of (Lab3.create_gateway Cases.target_down Cases.lab3_at_step2)
           ++ t3 ++ Called (ImportModule "strands") ok :: t4))
  /\ outcome_of (Lab3.create_gateway Cases.gateway_down Cases.lab3_at_step2)
     = Return false
  /\ Lab3.run Cases.gateway_down Cases.lab3_fresh
     = (Return false,
        state_of (Lab3.create_gateway Cases.gateway_down Cases.lab3_at_step2),
        events_of (Lab3.get_or_create_cognito Cases.gateway_down Cases.lab3_fresh)
        ++ events_of (Lab3.create_gateway Cases.gateway_down Cases.lab3_at_step2)).
Proof.
  split; [|split].
  - apply (proj1 (proj2
             (C9_target_not_critical_gateway_critical Cases.target_down))
           Cases.lab3_fresh Cases.lab3_at_step2 Cases.lab3_at_step3);
      vm_compute; reflexivity.
  - apply (proj1 (proj2 (proj2
             (C9_target_not_critical_gateway_critical Cases.gateway_down)))
           Cases.lab3_at_step2 "customersupport-gw"
           Lab3.placeholder_gateway_role "demo_client_id"
           "https://cognito-idp.us-east-1.amazonaws.com/demo").
    vm_compute. tauto.
  - apply (proj2 (proj2 (proj2
             (C9_target_not_critical_gateway_critical Cases.gateway_down)))
           Cases.lab3_fresh Cases.lab3_at_step2);
      vm_compute; reflexivity.
Defined.

(** ** Existence checks *)

Module LookupFacts.
Import PyFacts Lab3Facts.

(** Close a goal whose hypothesis says that an event occurs in a list in
    which it does not. *)
Ltac no_such_event H :=
  solve [ exfalso; cbn in H;
          repeat match type of H with
                 | _ \/ _ => destruct H as [H|H]
                 | ex _ => destruct H as [? H]
                 | False => contradiction
                 | _ = _ => discriminate H
                 end ].

(** Find an event in a list of events. *)
Ltac in_events :=
  cbn;
  repeat match goal with
         | |- _ \/ _ => first [left; reflexivity | right]
         end.

Section Lookups.
Context {W : Type} (env : Env W).

Lemma gateway_lookup_failed (st : State W Lab3.Self) :
  (In (Called (SsmGetParameter Lab3.p_gateway_id) false)
      (events_of (Lab3.create_gateway env st))
   \/ exists id, In (Called (GetGateway id) false)
                    (events_of (Lab3.create_gateway env st))) ->
  (exists ok, In (Called (SsmGetParameter Lab3.p_gateway_iam_role) ok)
                 (events_of (Lab3.create_gateway env st)))
  /\ (forall c, Lab3.cognito_config (self st) = Some c ->
        exists role ok,
          In (Called (CreateGateway "customersupport-gw" role
                        (Lab3.client_id c) (Lab3.discovery_url c)) ok)
             (events_of (Lab3.create_gateway env st)))
  /\ exists b, outcome_of (Lab3.create_gateway env st) = Return b.
Proof.
  unfold Lab3.create_gateway, Lab3.boto3_client, Lab3.ssm_get_parameter,
    Lab3.ssm_put_parameter.
  monad. repeat step; intros H; try no_such_event H;
    (split; [eexists; in_events|]);
    (split; [intros cfg' Hcfg; try discriminate Hcfg; injection Hcfg as <-;
             do 2 eexists; in_events|]);
    eexists; reflexivity.
Qed.

Lemma cognito_lookup_failed (st : State W Lab3.Self) name :
  In (Called (SsmGetParameter name) false)
     (events_of (Lab3.get_or_create_cognito env st)) ->
  outcome_of (Lab3.get_or_create_cognito env st) = Return true
  /\ Lab3.cognito_config (self (state_of (Lab3.get_or_create_cognito env st)))
     = Some Lab3.demo_cognito.
Proof.
  unfold Lab3.get_or_create_cognito, Lab3.boto3_client, Lab3.ssm_get_parameter.
  monad. repeat step; intros H; try no_such_event H; split; reflexivity.
Qed.

Lemma lambda_lookup_failed (st : State W Lab3.Self) :
  In (Called (SsmGetParameter Lab3.p_lambda_arn) false)
     (events_of (Lab3.add_lambda_target env st)) ->
  exists ok,
    In (Called (CreateGatewayTarget (Lab3.gateway_id (self st))
                  (Lab3.placeholder_lambda_arn (Lab3.region (self st)))) ok)
       (events_of (Lab3.add_lambda_target env st)).
Proof.
  unfold Lab3.add_lambda_target, Lab3.boto3_client, Lab3.ssm_get_parameter.
  monad. repeat step; intros H; try no_such_event H; eexists; in_events.
Qed.

Lemma role_lookup_failed (st : State W Lab4.Self) :
  In (Called (IamGetRole Lab4.role_name) false)
     (events_of (Lab4.create_execution_role env st)) ->
  outcome_of (Lab4.create_execution_role env st) = Return Lab4.mock_role_arn.
Proof.
  unfold Lab4.create_execution_role.
  monad. repeat step; intros H; try no_such_event H; reflexivity.
Qed.
End Lookups.

End LookupFacts.

(** C7: a look-up that raises counts as "not there".  In [create_gateway], a
    failed read of the recorded gateway id or a failed [get_gateway] leads to
    the create branch: the role parameter is read next and, the Cognito
    configuration being set, [create_gateway] is called on the platform; the
    function returns and does not raise.  In [get_or_create_cognito] a failed
    parameter read leads to the demo configuration and [True]; in
    [add_lambda_target] a failed read of the Lambda ARN leads to the
    placeholder ARN, with which the target is created; in
    [create_execution_role] a failed [get_role] leads to the placeholder
    role ARN. *)
Theorem C7_failed_lookup_takes_fallback {W : Type} (env : Env W) :
  (forall st : State W Lab3.Self,
     (In (Called (SsmGetParameter Lab3.p_gateway_id) false)
         (events_of (Lab3.create_gateway env st))
      \/ exists id, In (Called (GetGateway id) false)
                       (events_of (Lab3.create_gateway env st))) ->
     (exists ok, In (Called (SsmGetParameter Lab3.p_gateway_iam_role) ok)
                    (events_of (Lab3.create_gateway env st)))
     /\ (forall c, Lab3.cognito_config (self st) = Some c ->
           exists role ok,
             In (Called (CreateGateway "customersupport-gw" role
                           (Lab3.client_id c) (Lab3.discovery_url c)) ok)
                (events_of (Lab3.create_gateway env st)))
     /\ exists b, outcome_of (Lab3.create_gateway env st) = Return b)
  /\ (forall (st : State W Lab3.Self) name,
        In (Called (SsmGetParameter name) false)
           (events_of (Lab3.get_or_create_cognito env st)) ->
        outcome_of (Lab3.get_or_create_cognito env st) = Return true
        /\ Lab3.cognito_config
             (self (state_of (Lab3.get_or_create_cognito env st)))
           = Some Lab3.demo_cognito)
  /\ (forall st : State W Lab3.Self,
        In (Called (SsmGetParameter Lab3.p_lambda_arn) false)
           (events_of (Lab3.add_lambda_target env st)) ->
        exists ok,
          In (Called (CreateGatewayTarget (Lab3.gateway_id (self st))
                        (Lab3.placeholder_lambda_arn (Lab3.region (self st))))
                ok)
             (events_of (Lab3.add_lambda_target env st)))
  /\ (forall st : State W Lab4.Self,
        In (Called (IamGetRole Lab4.role_name) false)
           (events_of (Lab4.create_execution_role env st)) ->
        outcome_of (Lab4.create_execution_role env st)
        = Return Lab4.mock_role_arn).
Proof.
  split; [apply LookupFacts.gateway_lookup_failed|].
  split; [apply LookupFacts.cognito_lookup_failed|].
  split; [apply LookupFacts.lambda_lookup_failed|].
  apply LookupFacts.role_lookup_failed.
Qed.

(** C7 on the empty simulated account, where no parameter is recorded and no
    role exists: the gateway is created, the demo configuration and the
    placeholder ARNs are used. *)
Lemma C7_witness :
  ((exists ok, In (Called (SsmGetParameter Lab3.p_gateway_iam_role) ok)
                  (events_of (Lab3.create_gateway Cases.all_up Cases.lab3_at_step2)))
   /\ (forall c, Lab3.cognito_config (self Cases.lab3_at_step2) = Some c ->
         exists role ok,
           In (Called (CreateGateway "customersupport-gw" role
                         (Lab3.client_id c) (Lab3.discovery_url c)) ok)
              (events_of (Lab3.create_gateway Cases.all_up Cases.lab3_at_step2)))
   /\ exists b,
        outcome_of (Lab3.create_gateway Cases.all_up Cases.lab3_at_step2)
        = Return b)
  /\ (outcome_of (Lab3.get_or_create_cognito Cases.all_up Cases.lab3_fresh)
      = Return true
      /\ Lab3.cognito_config
           (self (state_of (Lab3.get_or_create_cognito Cases.all_up
                              Cases.lab3_fresh)))
         = Some Lab3.demo_cognito)
  /\ (exists ok,
        In (Called (CreateGatewayTarget
                      (Lab3.gateway_id (self Cases.lab3_at_step3))
                      (Lab3.placeholder_lambda_arn
                         (Lab3.region (self Cases.lab3_at_step3)))) ok)
           (events_of (Lab3.add_lambda_target Cases.all_up Cases.lab3_at_step3)))
  /\ outcome_of (Lab4.create_execution_role Cases.all_up Cases.lab4_fresh)
     = Return Lab4.mock_role_arn.
Proof.
  split; [|split; [|split]].
  - apply (proj1 (C7_failed_lookup_takes_fallback Cases.all_up)).
    left. vm_compute. tauto.
  - apply (proj1 (proj2 (C7_failed_lookup_takes_fallback Cases.all_up))
             Cases.lab3_fresh Lab3.p_client_id).
    vm_compute. tauto.
  - apply (proj1 (proj2 (proj2 (C7_failed_lookup_takes_fallback Cases.all_up)))).
    vm_compute. tauto.
  - apply (proj2 (proj2 (proj2 (C7_failed_lookup_takes_fallback Cases.all_up)))).
    vm_compute. tauto.
Defined.

(** ** Find-or-create *)

Module CreateFacts.
Import PyFacts Lab3Facts LookupFacts.

Section Gateway.
Context {W : Type} (env : Env W).

Lemma gateway_found (st : State W Lab3.Self) id :
  In (Called (GetGateway id) true) (events_of (Lab3.create_gateway env st)) ->
  Lab3.gateway_creations (events_of (Lab3.create_gateway env st)) = []
  /\ outcome_of (Lab3.create_gateway env st) = Return true
  /\ Lab3.gateway_id (self (state_of (Lab3.create_gateway env st))) = Some id.
Proof.
  unfold Lab3.create_gateway, Lab3.boto3_client, Lab3.ssm_get_parameter,
    Lab3.ssm_put_parameter.
  monad. repeat step; intros H; try no_such_event H.
  cbn in H. repeat (destruct H as [H|H]; try discriminate H; try contradiction).
  injection H as <-. repeat split.
Qed.

Lemma gateway_checked_first (st : State W Lab3.Self) :
  Lab3.checked_before_create false (events_of (Lab3.create_gateway env st))
  = true.
Proof.
  unfold Lab3.create_gateway, Lab3.boto3_client, Lab3.ssm_get_parameter,
    Lab3.ssm_put_parameter.
  monad. repeat step; reflexivity.
Qed.
End Gateway.

End CreateFacts.

(** C5, as the code has it: [create_gateway] looks for the recorded gateway
    before it creates one.  Whenever its [get_gateway] succeeds (the
    gateway exists), it makes no [create_gateway] call, returns [True] and
    takes that gateway; and a [create_gateway] call is only ever made after a
    check that failed.  Attaching the Lambda target has no check: a failure
    of its create call is tolerated instead. *)
Theorem C5_gateway_find_or_create {W : Type} (env : Env W) :
  (forall (st : State W Lab3.Self) id,
     In (Called (GetGateway id) true) (events_of (Lab3.create_gateway env st)) ->
     Lab3.gateway_creations (events_of (Lab3.create_gateway env st)) = []
     /\ outcome_of (Lab3.create_gateway env st) = Return true
     /\ Lab3.gateway_id (self (state_of (Lab3.create_gateway env st)))
        = Some id)
  /\ (forall st : State W Lab3.Self,
        Lab3.checked_before_create false
          (events_of (Lab3.create_gateway env st)) = true)
  /\ always (Lab3.add_lambda_target env) true.
Proof.
  split; [apply CreateFacts.gateway_found|].
  split; [apply CreateFacts.gateway_checked_first|].
  apply Lab3Facts.add_lambda_target_true.
Qed.

(** C5 on the simulated account: the gateway stage invoked a second time,
    after the invocation that created gateway [gw-0], creates nothing. *)
Lemma C5_witness :
  Lab3.gateway_creations
    (events_of (Lab3.create_gateway Cases.all_up Cases.lab3_at_step3)) = []
  /\ outcome_of (Lab3.create_gateway Cases.all_up Cases.lab3_at_step3)
     = Return true
  /\ Lab3.gateway_id
       (self (state_of (Lab3.create_gateway Cases.all_up Cases.lab3_at_step3)))
     = Some "gw-0".
Proof.
  apply (proj1 (C5_gateway_find_or_create Cases.all_up)).
  vm_compute. tauto.
Defined.

(** C5 as stated fails on the memory stage and on the Lambda target.  With
    memory [mem-0] in the account, a second [create_memory_resource] makes no
    look-up and one more create call, after which the account holds two
    memories; with the target attached, a second [add_lambda_target] makes
    the create call again. *)
Lemma C5_counterexample :
  Sim.memories (world Cases.lab2_created) = ["mem-0"]
  /\ events_of (Lab2.create_memory_resource Cases.all_up Cases.lab2_created)
     = [Called (ImportModule "bedrock_agentcore.memory") true;
        Called (ImportModule "bedrock_agentcore.memory.constants") true;
        Called (MemoryClientNew "us-east-1") true;
        Called (CreateMemoryAndWait "CustomerSupportMemory") true]
  /\ Sim.memories
       (world (state_of (Lab2.create_memory_resource Cases.all_up
                           Cases.lab2_created)))
     = ["mem-0"; "mem-1"]
  /\ length
       (Lab3.target_creations
          (events_of (Lab3.add_lambda_target Cases.all_up
                        (state_of (Lab3.add_lambda_target Cases.all_up
                                     Cases.lab3_at_step3)))))
     = 1.
Proof. vm_compute. repeat split. Qed.

(** ** The gateway stage and [memory_id] *)

Module MemoryIdFacts.
Import Lab3 PyFacts.

Section Ignores.
Context {W : Type}.

Lemma ignores_ret {A} (a : A) : ignores_memory_id (W:=W) (ret a).
Proof. intros st v. reflexivity. Qed.

Lemma ignores_raise {A} e : ignores_memory_id (W:=W) (A:=A) (raise e).
Proof. intros st v. reflexivity. Qed.

Lemma ignores_gets {A} (f : State W Self -> A) :
  (forall st v, f (with_memory_id v st) = f st) ->
  ignores_memory_id (gets f).
Proof. intros H st v. unfold gets. cbn. now rewrite H. Qed.

Lemma ignores_modify (g : State W Self -> State W Self) :
  (forall st v, g (with_memory_id v st) = with_memory_id v (g st)) ->
  ignores_memory_id (modify g).
Proof. intros H st v. unfold modify. cbn. now rewrite H. Qed.

Lemma ignores_perform {A} c (f : W -> reply A * W) :
  ignores_memory_id (perform c f).
Proof.
  intros st v. unfold perform. cbn.
  destruct (f (world st)) as [[a|msg] w]; reflexivity.
Qed.

Lemma ignores_bind {A B} (m : Prog W A) (f : A -> Prog W B) :
  ignores_memory_id m -> (forall a, ignores_memory_id (f a)) ->
  ignores_memory_id (bind m f).
Proof.
  intros Hm Hf st v. unfold bind. rewrite Hm.
  destruct (m st) as [[[a|e] s1] t1]; cbn; [|reflexivity].
  rewrite Hf. destruct (f a s1) as [[o s2] t2]. reflexivity.
Qed.

Lemma ignores_try_except {A} (m : Prog W A) h :
  ignores_memory_id m -> (forall msg, ignores_memory_id (h msg)) ->
  ignores_memory_id (try_except m h).
Proof.
  intros Hm Hh st v. unfold try_except. rewrite Hm.
  destruct (m st) as [[[a|[msg| |code]] s1] t1]; cbn; try reflexivity.
  rewrite Hh. destruct (h msg s1) as [[o s2] t2]. reflexivity.
Qed.

Lemma ignores_try_bare {A} (m h : Prog W A) :
  ignores_memory_id m -> ignores_memory_id h ->
  ignores_memory_id (try_bare m h).
Proof.
  intros Hm Hh st v. unfold try_bare. rewrite Hm.
  destruct (m st) as [[[a|e] s1] t1]; cbn; [reflexivity|].
  rewrite Hh. destruct (h s1) as [[o s2] t2]. reflexivity.
Qed.
End Ignores.

(** Follow the program. *)
Ltac ignores :=
  lazymatch goal with
  | |- ignores_memory_id (bind _ _) =>
      apply ignores_bind; [ignores | intros ?; ignores]
  | |- ignores_memory_id (ret _) => apply ignores_ret
  | |- ignores_memory_id (raise _) => apply ignores_raise
  | |- ignores_memory_id (perform _ _) => apply ignores_perform
  | |- ignores_memory_id (gets _) => apply ignores_gets; intros; reflexivity
  | |- ignores_memory_id (modify _) => apply ignores_modify; intros; reflexivity
  | |- ignores_memory_id (try_except _ _) =>
      apply ignores_try_except; [ignores | intros ?; ignores]
  | |- ignores_memory_id (try_bare _ _) =>
      apply ignores_try_bare; [ignores | ignores]
  | |- ignores_memory_id (if ?b then _ else _) => destruct b; ignores
  | |- ignores_memory_id (match ?x with _ => _ end) => destruct x; ignores
  | |- ignores_memory_id ?m => let h := head m in unfold h; ignores
  end.

Section Run.
Context {W : Type} (env : Env W).

Lemma run_ignores_memory_id : ignores_memory_id (run env).
Proof. unfold run. ignores. Qed.

Lemma cognito_starts (st : State W Self) :
  exists b st' ok t,
    get_or_create_cognito env st
    = (Return b, st', Called (Boto3Client "ssm") ok :: t).
Proof.
  unfold get_or_create_cognito, boto3_client, ssm_get_parameter.
  monad. repeat step; eauto 8.
Qed.

Lemma run_starts (st : State W Self) :
  exists ok t, events_of (run env st) = Called (Boto3Client "ssm") ok :: t.
Proof.
  destruct (cognito_starts st) as (b & s1 & ok & t1 & H1).
  exists ok. unfold run, try_except, bind, events_of. rewrite H1.
  match goal with
  | |- context [(if negb b then ?x else ?y) s1] =>
      destruct ((if negb b then x else y) s1) as [[[r|[msg| |code]] s2] t2]
  end; cbn; eauto.
Qed.
End Run.

End MemoryIdFacts.

(** C4, as the code has it: the gateway stage never looks at [memory_id].
    From every state, [run] gives the same result, the same events and the
    same state with [memory_id] absent as with any [memory_id], and it always
    begins with a call ([boto3.client('ssm')], for the Cognito look-up):
    there is no dependency check before the remote calls. *)
Theorem C4_gateway_stage_ignores_memory_id
  {W : Type} (env : Env W) (st : State W Lab3.Self) (v : option string) :
  Lab3.run env (Lab3.with_memory_id v st)
  = (outcome_of (Lab3.run env st),
     Lab3.with_memory_id v (state_of (Lab3.run env st)),
     events_of (Lab3.run env st))
  /\ exists ok t,
       events_of (Lab3.run env st) = Called (Boto3Client "ssm") ok :: t.
Proof.
  split; [apply MemoryIdFacts.run_ignores_memory_id|].
  apply MemoryIdFacts.run_starts.
Qed.

(** C4 as stated fails: in an empty directory, with no [memory_id] and an
    account that answers, the gateway stage succeeds after 22 calls, and
    leaves the new gateway in [lab_config.json]. *)
Lemma C4_counterexample :
  Lab3.memory_id (self Cases.lab3_fresh) = None
  /\ disk Cases.lab3_fresh = ∅
  /\ outcome_of (Lab3.run Cases.all_up Cases.lab3_fresh) = Return true
  /\ length (events_of (Lab3.run Cases.all_up Cases.lab3_fresh)) = 22
  /\ disk (state_of (Lab3.run Cases.all_up Cases.lab3_fresh)) !! "lab_config.json"
     = Some (File (Some (JObject
         {[ "gateway_id" := JStr "gw-0";
            "gateway_url" := JStr "https://gw-0.gateway.example/mcp" ]}))).
Proof. vm_compute. repeat split. Qed.

(** ** The persisted configuration *)

(** C2 at the memory stage, where the code departs from it: run with
    [gateway_id] and [gateway_url] in [lab_config.json], the stage succeeds
    and leaves a file that holds [memory_id] alone.  The two keys an earlier
    stage wrote are gone. *)
Theorem C2_memory_stage_overwrites_config :
  disk Cases.lab2_rerun !! "lab_config.json"
  = Some (File (Some (JObject Cases.config_after_gateway)))
  /\ Cases.config_after_gateway !! "gateway_id" = Some (JStr "gw-0")
  /\ outcome_of (Lab2.run Cases.all_up Cases.lab2_rerun) = Return true
  /\ disk (state_of (Lab2.run Cases.all_up Cases.lab2_rerun)) !! "lab_config.json"
     = Some (File (Some (JObject {[ "memory_id" := JStr "mem-0" ]})))
  /\ ({[ "memory_id" := JStr "mem-0" ]} : gmap string jval) !! "gateway_id"
     = None.
Proof. vm_compute. repeat split. Qed.

Module ConfigFacts.
Import PyFacts Lab3Facts.

(** The gateway stage, by contrast, merges: when its save succeeds, the file
    holds what it held before (nothing, when it was not there) with the two
    gateway keys set. *)
Lemma gateway_stage_merges_config {W : Type} (env : Env W)
  (st st' : State W Lab3.Self) t :
  Lab3.save_config env st = (Return tt, st', t) ->
  exists old : gmap string jval,
    (disk st !! "lab_config.json" = None /\ old = ∅
     \/ disk st !! "lab_config.json" = Some (File (Some (JObject old))))
    /\ disk st' !! "lab_config.json"
       = Some (File (Some (JObject
           (<["gateway_id" := of_attr (Lab3.gateway_id (self st))]>
              (<["gateway_url" := of_attr (Lab3.gateway_url (self st))]> old))))).
Proof.
  unfold Lab3.save_config, read_json, write_json, path_exists.
  unfold try_except, try_bare, bind, ret, raise, gets, modify, emit,
    attr, set_self, perform.
  cbn -[lookup insert].
  destruct (disk st !! "lab_config.json") as [[[[d|]|]|]|] eqn:Hd;
    cbn -[lookup insert];
    repeat (rewrite ?Hd;
            match goal with
            | |- context [on_open_read env ?p ?w] =>
                destruct (on_open_read env p w) as [[[]|?] ?]
            | |- context [on_open_write env ?p ?w] =>
                destruct (on_open_write env p w) as [[[]|?] ?]
            end; cbn -[lookup insert]);
    rewrite ?Hd; cbn -[lookup insert]; intros H; try discriminate H;
    injection H as <- <-.
  - exists d. split; [now right|]. cbn -[lookup insert]. apply lookup_insert_eq.
  - exists ∅. split; [now left|]. cbn -[lookup insert]. apply lookup_insert_eq.
Qed.


(** Inversion of a [bind] that returned. *)
Lemma bind_returned {Ev S A B} (m : M Ev S A) (f : A -> M Ev S B) s b s' t :
  bind m f s = (Return b, s', t) ->
  exists a s1 t1 t2,
    m s = (Return a, s1, t1) /\ f a s1 = (Return b, s', t2) /\ t = t1 ++ t2.
Proof.
  unfold bind. destruct (m s) as [[[a|e] s1] t1]; [|discriminate].
  destruct (f a s1) as [[o s2] t2] eqn:E. intros H. injection H as -> -> <-.
  now exists a, s1, t1, t2.
Qed.

(** The memory stage, whenever it succeeds and whatever the file held
    before: the file holds [memory_id] and nothing else. *)
Lemma memory_stage_writes_one_key {W : Type} (env : Env W)
  (st st' : State W Lab2.Self) t :
  Lab2.run env st = (Return true, st', t) ->
  exists v : jval,
    disk st' !! "lab_config.json"
    = Some (File (Some (JObject {[ "memory_id" := v ]}))).
Proof.
  unfold Lab2.run, try_except.
  match goal with
  | |- context [match ?body st with _ => _ end] =>
      destruct (body st) as [[[b|[msg| |code]] s1] t1] eqn:E
  end; intros H; try discriminate H.
  injection H as -> -> ->.
  (* steps 1 and 2, each of which is tested *)
  do 2 (apply bind_returned in E;
        destruct E as ([|] & ? & ? & ? & _ & E & _);
        [cbn [negb] in E|discriminate E]).
  (* steps 3 and 4, whose results are not *)
  do 2 (apply bind_returned in E; destruct E as (? & ? & ? & ? & _ & E & _)).
  (* steps 5 and 6 *)
  do 2 (apply bind_returned in E;
        destruct E as ([|] & ? & ? & ? & _ & E & _);
        [cbn [negb] in E|discriminate E]).
  (* the save *)
  apply bind_returned in E. destruct E as (mid & s & ? & ? & _ & E & _).
  apply bind_returned in E. destruct E as ([] & s2 & ? & ? & E & E2 & _).
  injection E2 as <-. exists (of_attr mid).
  unfold write_json in E.
  apply bind_returned in E. destruct E as ([] & s3 & ? & ? & _ & E & _).
  apply bind_returned in E. destruct E as (n & s4 & ? & ? & E1 & E & _).
  injection E1 as <- <-.
  destruct (disk s3 !! "lab_config.json") as [[c|]|]; try discriminate E;
    injection E as <-; cbn -[lookup insert]; apply lookup_insert_eq.
Qed.

End ConfigFacts.

(** ** Lab 6: the sweep *)

Module Lab6Facts.
Import Lab6 PyFacts LookupFacts.

Section Sweep.
Context {W : Type} (env : Env W).

Lemma load_configuration_returns :
  triple (load_configuration env) (fun _ => True) (fun _ => False).
Proof. unfold load_configuration. safe. Qed.

Lemma cleanup_memory_true config :
  always (cleanup_memory_resources env config) true.
Proof. apply triple_always. unfold cleanup_memory_resources. safe. Qed.

Lemma cleanup_runtime_true config :
  always (cleanup_runtime_resources env config) true.
Proof. apply triple_always. unfold cleanup_runtime_resources. safe. Qed.

Lemma cleanup_gateway_true config :
  always (cleanup_gateway_resources env config) true.
Proof. apply triple_always. unfold cleanup_gateway_resources. safe. Qed.

Lemma cleanup_security_true config :
  always (cleanup_security_resources env config) true.
Proof. apply triple_always. unfold cleanup_security_resources. safe. Qed.

Lemma cleanup_observability_true :
  always (cleanup_observability_resources env) true.
Proof. apply triple_always. unfold cleanup_observability_resources. safe. Qed.

Lemma cleanup_local_files_true : always (cleanup_local_files env) true.
Proof. apply triple_always. unfold cleanup_local_files. safe. Qed.

(** The sweep: the configuration is loaded, then the six routines run one
    after the other, each from the state the one before left, and each
    returns [True]. *)
Lemma sweep_chain (st : State W Self) :
  exists config s0 t0 s1 t1 s2 t2 s3 t3 s4 t4 s5 t5 s6 t6,
    load_configuration env st = (Return config, s0, t0)
    /\ cleanup_memory_resources env config s0 = (Return true, s1, t1)
    /\ cleanup_runtime_resources env config s1 = (Return true, s2, t2)
    /\ cleanup_gateway_resources env config s2 = (Return true, s3, t3)
    /\ cleanup_security_resources env config s3 = (Return true, s4, t4)
    /\ cleanup_observability_resources env s4 = (Return true, s5, t5)
    /\ cleanup_local_files env s5 = (Return true, s6, t6)
    /\ sweep env st
       = (Return true, s6, t0 ++ t1 ++ t2 ++ t3 ++ t4 ++ t5 ++ t6).
Proof.
  pose proof (load_configuration_returns st) as H0. unfold outcome_of in H0.
  destruct (load_configuration env st) as [[[config|e] s0] t0] eqn:E0;
    [clear H0|contradiction].
  destruct (cleanup_memory_true config s0) as (s1 & t1 & E1).
  destruct (cleanup_runtime_true config s1) as (s2 & t2 & E2).
  destruct (cleanup_gateway_true config s2) as (s3 & t3 & E3).
  destruct (cleanup_security_true config s3) as (s4 & t4 & E4).
  destruct (cleanup_observability_true s4) as (s5 & t5 & E5).
  destruct (cleanup_local_files_true s5) as (s6 & t6 & E6).
  exists config, s0, t0, s1, t1, s2, t2, s3, t3, s4, t4, s5, t5, s6, t6.
  repeat (split; [assumption|]).
  unfold sweep, bind. rewrite E0, E1, E2, E3, E4, E5, E6. cbn.
  now rewrite app_nil_r.
Qed.

Lemma sweep_true : always (sweep env) true.
Proof.
  intros st.
  destruct (sweep_chain st)
    as (? & ? & ? & ? & ? & ? & ? & ? & ? & ? & ? & ? & ? & s6 & t6 & H).
  do 2 eexists. apply H.
Qed.

(** [run] of a stage that is not interactive. *)
Lemma run_batch w d rg :
  exists st' t, run env (Facade.mkState w d (init false rg)) = (Return true, st', t).
Proof.
  destruct (sweep_true (Facade.mkState w d (init false rg))) as (s & t & H).
  exists s, t. unfold run, attr, gets, bind, ret, try_except. cbn.
  now rewrite H.
Qed.

(** [run] of an interactive stage, by the answer to its prompt. *)
Lemma run_confirmed (st : State W Self) w :
  interactive (self st) = true ->
  on_confirm_ask env confirm_prompt (world st) = (Ok true, w) ->
  exists st' t,
    run env st = (Return true, st', Called (ConfirmAsk confirm_prompt) true :: t).
Proof.
  intros Hi Ha.
  destruct (sweep_true (with_world w st)) as (s & t & H).
  exists s, t. unfold run, attr, gets, bind, ret, try_except, perform. cbn.
  rewrite Hi, Ha. cbn. now rewrite H.
Qed.

Lemma run_declined (st : State W Self) w :
  interactive (self st) = true ->
  on_confirm_ask env confirm_prompt (world st) = (Ok false, w) ->
  run env st
  = (Return false, with_world w st, [Called (ConfirmAsk confirm_prompt) true]).
Proof.
  intros Hi Ha.
  unfold run, attr, gets, bind, ret, try_except, perform. cbn.
  rewrite Hi, Ha. reflexivity.
Qed.

(** A failed [delete_memory] leaves a warning in the memory category. *)
Lemma memory_failure_recorded config (st : State W Self) id :
  In (Called (DeleteMemory id) false)
     (events_of (cleanup_memory_resources env config st)) ->
  exists msg,
    s_memory (cleanup_summary
                (self (state_of (cleanup_memory_resources env config st))))
    = s_memory (cleanup_summary (self st))
      ++ ["Memory cleanup warning: " +:+ String.substring 0 50 msg].
Proof.
  unfold cleanup_memory_resources, config_get, as_str, record.
  monad. repeat step; intros H; try no_such_event H; eexists; reflexivity.
Qed.
End Sweep.

End Lab6Facts.

(** C8, as the code has it.  Whatever the configuration holds and whatever
    the calls answer, the sweep loads the configuration and runs the six
    category routines in order (memory, runtime, gateway, security,
    observability, local files), each from the state the one before left;
    each returns [True], none raises, and the sweep returns [True].  A stage
    that is not interactive therefore returns [True], and so does a second
    one run right after it on what the first left; an interactive stage
    does when the user confirms, and returns [False] with nothing attempted
    when the user declines.  A failed [delete_memory] is recorded in the
    ledger as a warning of the memory category. *)
Theorem C8_sweep_is_never_halted {W : Type} (env : Env W) :
  (forall st : State W Lab6.Self,
     exists config s0 t0 s1 t1 s2 t2 s3 t3 s4 t4 s5 t5 s6 t6,
       Lab6.load_configuration env st = (Return config, s0, t0)
       /\ Lab6.cleanup_memory_resources env config s0 = (Return true, s1, t1)
       /\ Lab6.cleanup_runtime_resources env config s1 = (Return true, s2, t2)
       /\ Lab6.cleanup_gateway_resources env config s2 = (Return true, s3, t3)
       /\ Lab6.cleanup_security_resources env config s3 = (Return true, s4, t4)
       /\ Lab6.cleanup_observability_resources env s4 = (Return true, s5, t5)
       /\ Lab6.cleanup_local_files env s5 = (Return true, s6, t6)
       /\ Lab6.sweep env st
          = (Return true, s6, t0 ++ t1 ++ t2 ++ t3 ++ t4 ++ t5 ++ t6))
  /\ (forall w d rg,
        exists st' t,
          Lab6.run env (Facade.mkState w d (Lab6.init false rg))
          = (Return true, st', t)
          /\ exists st'' t',
               Lab6.run env
                 (Facade.mkState (world st') (disk st') (Lab6.init false rg))
               = (Return true, st'', t'))
  /\ (forall (st : State W Lab6.Self) w,
        Lab6.interactive (self st) = true ->
        on_confirm_ask env Lab6.confirm_prompt (world st) = (Ok true, w) ->
        exists st' t,
          Lab6.run env st
          = (Return true, st',
             Called (ConfirmAsk Lab6.confirm_prompt) true :: t))
  /\ (forall (st : State W Lab6.Self) w,
        Lab6.interactive (self st) = true ->
        on_confirm_ask env Lab6.confirm_prompt (world st) = (Ok false, w) ->
        Lab6.run env st
        = (Return false, with_world w st,
           [Called (ConfirmAsk Lab6.confirm_prompt) true]))
  /\ (forall config (st : State W Lab6.Self) id,
        In (Called (DeleteMemory id) false)
           (events_of (Lab6.cleanup_memory_resources env config st)) ->
        exists msg,
          Lab6.s_memory
            (Lab6.cleanup_summary
               (self (state_of (Lab6.cleanup_memory_resources env config st))))
          = Lab6.s_memory (Lab6.cleanup_summary (self st))
            ++ ["Memory cleanup warning: " +:+ String.substring 0 50 msg]).
Proof.
  split; [apply Lab6Facts.sweep_chain|].
  split.
  { intros w d rg.
    destruct (Lab6Facts.run_batch env w d rg) as (st' & t & H).
    exists st', t. split; [exact H|].
    apply Lab6Facts.run_batch. }
  split; [apply Lab6Facts.run_confirmed|].
  split; [apply Lab6Facts.run_declined|].
  apply Lab6Facts.memory_failure_recorded.
Qed.

(** C8 on the simulated account: the interactive stage returns [True] when
    its user confirms and [False] when its user declines; with
    [delete_memory] down, the failure is recorded. *)
Lemma C8_witness :
  (exists st' t,
     Lab6.run Cases.all_up Cases.lab6_asking
     = (Return true, st', Called (ConfirmAsk Lab6.confirm_prompt) true :: t))
  /\ Lab6.run Cases.user_declines Cases.lab6_asking
     = (Return false, with_world Sim.empty_cloud Cases.lab6_asking,
        [Called (ConfirmAsk Lab6.confirm_prompt) true])
  /\ exists msg,
       Lab6.s_memory
         (Lab6.cleanup_summary
            (self (state_of (Lab6.cleanup_memory_resources Cases.memory_down
                               Cases.config_with_memory Cases.lab6_fresh))))
       = Lab6.s_memory (Lab6.cleanup_summary (self Cases.lab6_fresh))
         ++ ["Memory cleanup warning: " +:+ String.substring 0 50 msg].
Proof.
  split; [|split].
  - apply (proj1 (proj2 (proj2 (C8_sweep_is_never_halted Cases.all_up)))
             Cases.lab6_asking Sim.empty_cloud); reflexivity.
  - apply (proj1 (proj2 (proj2 (proj2
             (C8_sweep_is_never_halted Cases.user_declines))))
             Cases.lab6_asking Sim.empty_cloud); reflexivity.
  - apply (proj2 (proj2 (proj2 (proj2
             (C8_sweep_is_never_halted Cases.memory_down))))
             Cases.config_with_memory Cases.lab6_fresh "mem-0").
    vm_compute. tauto.
Defined.

(** C8 as stated fails where it says that each deletion failure is recorded
    in the ledger.  On the empty account the role, the five parameters and
    the secret are not there: seven deletion calls fail, the stage returns
    [True], and the ledger is as empty as it was. *)
Lemma C8_counterexample :
  outcome_of (Lab6.run Cases.all_up Cases.lab6_fresh) = Return true
  /\ Lab6.failed_deletions (events_of (Lab6.run Cases.all_up Cases.lab6_fresh))
     = [IamDeleteRole "AgentCoreRuntimeExecutionRole";
        SsmDeleteParameter "/app/customersupport/agentcore/runtime_arn";
        SsmDeleteParameter "/app/customersupport/agentcore/gateway_url";
        SsmDeleteParameter "/app/customersupport/agentcore/client_id";
        SsmDeleteParameter "/app/customersupport/agentcore/pool_id";
        SsmDeleteParameter "/app/customersupport/agentcore/cognito_discovery_url";
        SecretsDeleteSecret "customer-support-secret"]
  /\ Lab6.cleanup_summary (self (state_of (Lab6.run Cases.all_up Cases.lab6_fresh)))
     = Lab6.empty_summary.
Proof. vm_compute. repeat split. Qed.

(** ** The orchestrators *)

Module StageFacts.
Import Stage PyFacts.

Ltac stage :=
  unfold interact, pause, exit, throw, Stage.attr, Stage.set_self in *; monad.

Lemma lab_runs_app t1 t2 : lab_runs (t1 ++ t2) = lab_runs t1 ++ lab_runs t2.
Proof.
  induction t1 as [|ev t1 IH]; [reflexivity|].
  destruct ev; cbn; rewrite ?IH; reflexivity.
Qed.

(** What [fail_fast] says, position by position: after a lab that did not
    return [True], no lab is run. *)
Lemma fail_fast_last runs pre i r post :
  fail_fast runs -> runs = pre ++ (i, r) :: post -> r <> Value true ->
  post = [].
Proof.
  revert runs. induction pre as [|[j q] pre IH]; intros runs Hf -> Hr.
  - destruct Hf as [[H|H] _]; [contradiction|exact H].
  - destruct Hf as [_ Hf]. exact (IH _ Hf eq_refl Hr).
Qed.

Section Runner.
Context {W : Type} (env : Env W).

(** The workshop runner, in either mode: a lab that did not return [True]
    is the last lab run, and the labs run are the first of 1, 2, 4, 5, 6. *)
Lemma runner_fail_fast (w : W) (inter : bool) :
  fail_fast (lab_runs (events_of
    (RunWorkshop.run_all_labs env (mkState w (RunWorkshop.init inter)))))
  /\ (lab_runs (events_of
        (RunWorkshop.run_all_labs env (mkState w (RunWorkshop.init inter))))).*1
     `prefix_of` [1; 2; 4; 5; 6].
Proof.
  unfold RunWorkshop.run_all_labs, RunWorkshop.run_lab, RunWorkshop.construct,
    RunWorkshop.confirm, RunWorkshop.completed, RunWorkshop.failed.
  stage. destruct inter; cbn.
  all: repeat step.
  all: split; [cbn; intuition congruence|].
  all: cbn; repeat (apply prefix_cons); apply prefix_nil.
Qed.

(** Not interactive, the workshop runner never runs lab 6. *)
Lemma runner_batch (w : W) :
  fail_fast (lab_runs (events_of
    (RunWorkshop.run_all_labs env (mkState w (RunWorkshop.init false)))))
  /\ (lab_runs (events_of
        (RunWorkshop.run_all_labs env (mkState w (RunWorkshop.init false))))).*1
     `prefix_of` [1; 2; 4; 5].
Proof.
  unfold RunWorkshop.run_all_labs, RunWorkshop.run_lab, RunWorkshop.construct,
    RunWorkshop.confirm, RunWorkshop.completed, RunWorkshop.failed.
  stage.
  repeat step.
  all: split; [cbn; intuition congruence|].
  all: cbn; repeat (apply prefix_cons); apply prefix_nil.
Qed.

(** One lab of the orchestrator: one [Ran] event; [True] only when the lab
    returned [True]; an error of the lab gives [False]. *)
Lemma run_lab_n_once (n : nat) (st : State W ImplementLabs.Self) :
  exists r o st',
    ImplementLabs.run_lab_n env n st = (o, st', [Ran n r])
    /\ ImplementLabs.interactive (self st')
       = ImplementLabs.interactive (self st)
    /\ (o = Return true /\ r = Value true
        \/ o = Return false \/ o = Raise KeyboardInterrupt).
Proof.
  unfold ImplementLabs.run_lab_n, success_of. stage.
  repeat step; do 3 eexists; (split; [reflexivity|]); cbn; auto.
  split; [reflexivity|]. destruct a as [[|] attrs]; cbn; auto.
Qed.

(** The loop over any list of labs, not interactive: fail-fast, in the order
    of the list. *)
Lemma loop_fail_fast final (l : list (string * nat)) :
  forall (st : State W ImplementLabs.Self) o st' t,
    ImplementLabs.interactive (self st) = false ->
    ImplementLabs.run_labs env final l st = (o, st', t) ->
    fail_fast (lab_runs t) /\ (lab_runs t).*1 `prefix_of` l.*2.
Proof.
  induction l as [|[name n] rest IH]; intros st o st' t Hi H.
  - injection H as <- <- <-. split; [exact I|apply prefix_nil].
  - destruct (run_lab_n_once n st) as (r & o1 & st1 & Hrun & Hi1 & Ho).
    rewrite Hi in Hi1.
    cbn [ImplementLabs.run_labs] in H. unfold bind at 1 in H. rewrite Hrun in H.
    destruct Ho as [[-> ->]|[->| ->]].
    + unfold bind, Stage.attr, gets, ret, pause, emit in H. cbn in H.
      rewrite Hi1 in H. cbn in H.
      destruct (ImplementLabs.run_labs env final rest st1)
        as [[o2 s2] t2] eqn:E.
      injection H as <- <- <-.
      destruct (IH st1 o2 s2 t2 Hi1 E) as [IH1 IH2]. cbn.
      split; [split; [now left|exact IH1]|].
      now apply prefix_cons.
    + unfold bind, Stage.attr, gets, ret, pause, emit in H. cbn in H.
      rewrite Hi1 in H. cbn in H. injection H as <- <- <-. cbn.
      split; [split; [now right|exact I]|].
      apply prefix_cons, prefix_nil.
    + injection H as <- <- <-. cbn.
      split; [split; [now right|exact I]|].
      apply prefix_cons, prefix_nil.
Qed.

(** Not interactive, the prerequisites never stop the orchestrator. *)
Lemma check_prerequisites_batch (w : W) :
  exists w' t,
    ImplementLabs.check_prerequisites env (mkState w (ImplementLabs.init false))
    = (Return true, mkState w' (ImplementLabs.init false), t)
    /\ lab_runs t = [].
Proof.
  unfold ImplementLabs.check_prerequisites, ImplementLabs.check.
  unfold bind, Stage.attr, gets, ret. cbn.
  repeat match goal with
         | |- context [prerequisite env ?x ?y] =>
             destruct (prerequisite env x y) as [? ?]; cbn
         end.
  case_if; cbn; do 2 eexists; (split; reflexivity).
Qed.

Lemma orchestrator_fail_fast (w : W) o st' t :
  ImplementLabs.run_all_labs env (mkState w (ImplementLabs.init false))
  = (o, st', t) ->
  fail_fast (lab_runs t) /\ (lab_runs t).*1 `prefix_of` [1; 2; 3; 4; 5].
Proof.
  destruct (check_prerequisites_batch w) as (w' & t0 & Hc & Ht).
  unfold ImplementLabs.run_all_labs. unfold bind at 1. rewrite Hc.
  unfold bind, Stage.attr, gets, ret. cbn -[ImplementLabs.run_labs].
  destruct (ImplementLabs.run_labs env _ ImplementLabs.labs
              (mkState w' (ImplementLabs.init false)))
    as [[o2 s2] t2] eqn:E.
  apply loop_fail_fast in E; [|reflexivity].
  intros H. injection H as <- <- <-.
  rewrite lab_runs_app, Ht. exact E.
Qed.
End Runner.

End StageFacts.

(** C1: fail-fast.  Not interactive, both orchestrators stop at the first
    lab that does not return [True] (it returned [False], raised an error,
    or was interrupted): in the list of the labs run, with what each
    answered, such a lab is the last one, and the labs are run in the order
    1, 2, 4, 5 by the workshop runner and 1, 2, 3, 4, 5 by the lab
    orchestrator.  The loop of the lab orchestrator does so over every list
    of labs. *)
Theorem C1_fail_fast_when_not_interactive
  {W : Type} (env : Stage.Env W) (w : W) :
  (Stage.fail_fast
     (Stage.lab_runs (events_of
        (RunWorkshop.run_all_labs env
           (Stage.mkState w (RunWorkshop.init false)))))
   /\ (Stage.lab_runs (events_of
         (RunWorkshop.run_all_labs env
            (Stage.mkState w (RunWorkshop.init false))))).*1
      `prefix_of` [1; 2; 4; 5])
  /\ (Stage.fail_fast
        (Stage.lab_runs (events_of
           (ImplementLabs.run_all_labs env
              (Stage.mkState w (ImplementLabs.init false)))))
      /\ (Stage.lab_runs (events_of
            (ImplementLabs.run_all_labs env
               (Stage.mkState w (ImplementLabs.init false))))).*1
         `prefix_of` [1; 2; 3; 4; 5])
  /\ (forall final (l : list (string * nat)) results,
        Stage.fail_fast
          (Stage.lab_runs (events_of
             (ImplementLabs.run_labs env final l
                (Stage.mkState w (ImplementLabs.mkSelf false results)))))
        /\ (Stage.lab_runs (events_of
              (ImplementLabs.run_labs env final l
                 (Stage.mkState w (ImplementLabs.mkSelf false results))))).*1
           `prefix_of` l.*2).
Proof.
  split; [|split].
  - apply StageFacts.runner_batch.
  - destruct (ImplementLabs.run_all_labs env
                (Stage.mkState w (ImplementLabs.init false)))
      as [[o st'] t] eqn:E.
    exact (StageFacts.orchestrator_fail_fast env w o st' t E).
  - intros final l results.
    destruct (ImplementLabs.run_labs env final l
                (Stage.mkState w (ImplementLabs.mkSelf false results)))
      as [[o st'] t] eqn:E.
    apply (StageFacts.loop_fail_fast env final l _ o st' t) in E;
      [exact E|reflexivity].
Qed.

(** C3 at the workshop runner, where the code departs from it.  Interactive,
    with lab 1 returning [False] and the user answering yes to "Continue
    despite failure?", [run_all_labs] returns [False] right after the answer:
    lab 2 is neither constructed nor run.  This holds in general: whatever
    the labs and the user answer, a failed lab is the last lab the runner
    runs.  The lab orchestrator, in the same situation, asks a second
    question and then does run labs 2 to 5. *)
Theorem C3_runner_aborts_after_yes :
  RunWorkshop.run_all_labs Cases.lab1_fails
    (Stage.mkState tt (RunWorkshop.init true))
  = (Return false,
     Stage.mkState tt
       (RunWorkshop.mkSelf true [] ["Lab 1: Create Agent Prototype"]),
     [Stage.Asked "Ready to start the workshop?" (Stage.Value true);
      Stage.Constructed 1 (Stage.Value tt);
      Stage.Ran 1 (Stage.Value false);
      Stage.Asked "Continue despite failure?" (Stage.Value true)])
  /\ (forall (W : Type) (env : Stage.Env W) (w : W),
        Stage.fail_fast
          (Stage.lab_runs (events_of
             (RunWorkshop.run_all_labs env
                (Stage.mkState w (RunWorkshop.init true))))))
  /\ Stage.lab_runs (events_of
        (ImplementLabs.run_all_labs Cases.lab1_fails
           (Stage.mkState tt (ImplementLabs.init true))))
     = [(1, Stage.Value false); (2, Stage.Value true); (3, Stage.Value true);
        (4, Stage.Value true); (5, Stage.Value true)].
Proof.
  split; [vm_compute; reflexivity|].
  split; [|vm_compute; reflexivity].
  intros W env w. apply (StageFacts.runner_fail_fast env w true).
Qed.

(** ** Exit codes *)

Module ExitFacts.
Import Stage PyFacts StageFacts.

Section Mains.
Context {W : Type} (env : Env W).

(** The state [main] gives its runner. *)
Lemma runner_single n a ni c (st : State W RunWorkshop.Self) :
  exit_code (outcome_of
    (RunWorkshop.main env (RunWorkshop.mkArgs (Some (S n)) a ni c) st))
  = expected_status (outcome_of
      (RunWorkshop.run_single_lab env (S n)
         (mkState (world st) (RunWorkshop.init (negb ni))))).
Proof.
  unfold RunWorkshop.main, RunWorkshop.dispatch, try_catch, bind, ret, exit,
    raise, Stage.set_self, modify, outcome_of.
  cbn -[RunWorkshop.run_single_lab].
  destruct (RunWorkshop.run_single_lab env (S n) _)
    as [[[[|]|[msg| |code]] s] t]; reflexivity.
Qed.

Lemma runner_all a ni c (st : State W RunWorkshop.Self) :
  a || (c =? 1)%nat = true ->
  exit_code (outcome_of
    (RunWorkshop.main env (RunWorkshop.mkArgs None a ni c) st))
  = expected_status (outcome_of
      (RunWorkshop.run_all_labs env
         (mkState (world st) (RunWorkshop.init (negb ni))))).
Proof.
  intros H.
  unfold RunWorkshop.main, RunWorkshop.dispatch, try_catch, bind, ret, exit,
    raise, Stage.set_self, modify, outcome_of.
  cbn -[RunWorkshop.run_all_labs]. rewrite H.
  destruct (RunWorkshop.run_all_labs env _)
    as [[[[|]|[msg| |code]] s] t]; reflexivity.
Qed.

Lemma runner_help a ni c (st : State W RunWorkshop.Self) :
  a || (c =? 1)%nat = false ->
  exit_code (outcome_of
    (RunWorkshop.main env (RunWorkshop.mkArgs None a ni c) st)) = 0.
Proof.
  intros H.
  unfold RunWorkshop.main, RunWorkshop.dispatch, try_catch, bind, ret, exit,
    raise, Stage.set_self, modify, outcome_of.
  cbn. rewrite H. reflexivity.
Qed.

Lemma orchestrator_single n inter (st : State W ImplementLabs.Self) :
  1 <= n <= 5 ->
  exit_code (outcome_of
    (ImplementLabs.main env (ImplementLabs.mkArgs false false (Some n) inter) st))
  = lenient_status (outcome_of
      (ImplementLabs.run_lab_n env n
         (mkState (world st) (ImplementLabs.init inter)))).
Proof.
  intros Hn.
  assert (n = 1 \/ n = 2 \/ n = 3 \/ n = 4 \/ n = 5) as Hc by lia.
  unfold ImplementLabs.main, ImplementLabs.run_lab_1, ImplementLabs.run_lab_2,
    ImplementLabs.run_lab_3, ImplementLabs.run_lab_4, ImplementLabs.run_lab_5,
    try_catch, bind, ret, exit, raise, Stage.set_self, modify, outcome_of.
  destruct Hc as [->|[->|[->|[->| ->]]]]; cbn -[ImplementLabs.run_lab_n];
    match goal with
    | |- context [ImplementLabs.run_lab_n env ?k ?s] =>
        destruct (ImplementLabs.run_lab_n env k s)
          as [[[b|[msg| |code]] s'] t]
    end; reflexivity.
Qed.

Lemma orchestrator_all c l inter (st : State W ImplementLabs.Self) :
  exit_code (outcome_of
    (ImplementLabs.main env (ImplementLabs.mkArgs false true l inter) st))
  = lenient_status (outcome_of
      (ImplementLabs.run_all_labs env
         (mkState (world st) (ImplementLabs.init inter))))
  /\ exit_code (outcome_of
       (ImplementLabs.main env (ImplementLabs.mkArgs true c l inter) st))
     = lenient_status (outcome_of
         (ImplementLabs.run_cleanup env
            (mkState (world st) (ImplementLabs.init inter)))).
Proof.
  unfold ImplementLabs.main, try_catch, bind, ret, exit, raise,
    Stage.set_self, modify, outcome_of.
  split.
  - cbn -[ImplementLabs.run_all_labs].
    destruct (ImplementLabs.run_all_labs env _)
      as [[[b|[msg| |code]] s'] t]; reflexivity.
  - cbn -[ImplementLabs.run_cleanup].
    destruct (ImplementLabs.run_cleanup env _)
      as [[[b|[msg| |code]] s'] t]; reflexivity.
Qed.
End Mains.

End ExitFacts.

(** C6, as the code has it.  [run_workshop.py] ends with the status the
    specification asks for: 0 when the run it selected returns [True], 1 when
    that run returns [False], raises an error or is interrupted from the
    keyboard, and 0 when it only prints the help.  [Implement_labs.py] does
    not look at the result of the run: it ends with 1 only when an error
    escapes the run, and with 0 otherwise, also when a lab failed and when
    the user interrupted. *)
Theorem C6_exit_codes {W : Type} (env : Stage.Env W) :
  (forall n a ni c (st : Stage.State W RunWorkshop.Self),
     Stage.exit_code (outcome_of
       (RunWorkshop.main env (RunWorkshop.mkArgs (Some (S n)) a ni c) st))
     = Stage.expected_status (outcome_of
         (RunWorkshop.run_single_lab env (S n)
            (Stage.mkState (Stage.world st) (RunWorkshop.init (negb ni))))))
  /\ (forall a ni c (st : Stage.State W RunWorkshop.Self),
        Stage.exit_code (outcome_of
          (RunWorkshop.main env (RunWorkshop.mkArgs None a ni c) st))
        = if a || (c =? 1)%nat
          then Stage.expected_status (outcome_of
                 (RunWorkshop.run_all_labs env
                    (Stage.mkState (Stage.world st)
                       (RunWorkshop.init (negb ni)))))
          else 0)
  /\ (forall n inter (st : Stage.State W ImplementLabs.Self),
        1 <= n <= 5 ->
        Stage.exit_code (outcome_of
          (ImplementLabs.main env
             (ImplementLabs.mkArgs false false (Some n) inter) st))
        = Stage.lenient_status (outcome_of
            (ImplementLabs.run_lab_n env n
               (Stage.mkState (Stage.world st) (ImplementLabs.init inter)))))
  /\ (forall l inter (st : Stage.State W ImplementLabs.Self),
        Stage.exit_code (outcome_of
          (ImplementLabs.main env (ImplementLabs.mkArgs false true l inter) st))
        = Stage.lenient_status (outcome_of
            (ImplementLabs.run_all_labs env
               (Stage.mkState (Stage.world st) (ImplementLabs.init inter)))))
  /\ (forall c l inter (st : Stage.State W ImplementLabs.Self),
        Stage.exit_code (outcome_of
          (ImplementLabs.main env (ImplementLabs.mkArgs true c l inter) st))
        = Stage.lenient_status (outcome_of
            (ImplementLabs.run_cleanup env
               (Stage.mkState (Stage.world st) (ImplementLabs.init inter))))).
Proof.
  split; [apply ExitFacts.runner_single|].
  split.
  { intros a ni c st. destruct (a || (c =? 1)%nat) eqn:E.
    - now apply ExitFacts.runner_all.
    - now apply ExitFacts.runner_help. }
  split; [apply ExitFacts.orchestrator_single|].
  split.
  - intros l inter st. apply (ExitFacts.orchestrator_all env false l inter st).
  - intros c l inter st. apply (ExitFacts.orchestrator_all env c l inter st).
Qed.

(** C6 on the scripted workshop: [Implement_labs.py --lab 1] ends with the
    lenient status of its run of lab 1. *)
Lemma C6_witness :
  Stage.exit_code (outcome_of
    (ImplementLabs.main Cases.lab1_fails Cases.only_lab1
       (Stage.mkState tt (ImplementLabs.init false))))
  = Stage.lenient_status (outcome_of
      (ImplementLabs.run_lab_n Cases.lab1_fails 1
         (Stage.mkState tt (ImplementLabs.init false)))).
Proof.
  apply (proj1 (proj2 (proj2 (C6_exit_codes Cases.lab1_fails)))
           1 false (Stage.mkState tt (ImplementLabs.init false))).
  lia.
Defined.

(** C6 as stated fails on [Implement_labs.py]: [--lab 1] ends with status 0
    when lab 1 returns [False], and with status 0 when lab 1 is interrupted
    from the keyboard. *)
Lemma C6_counterexample :
  Stage.lab_runs (events_of
    (ImplementLabs.main Cases.lab1_fails Cases.only_lab1
       (Stage.mkState tt (ImplementLabs.init false))))
  = [(1, Stage.Value false)]
  /\ Stage.exit_code (outcome_of
       (ImplementLabs.main Cases.lab1_fails Cases.only_lab1
          (Stage.mkState tt (ImplementLabs.init false)))) = 0
  /\ Stage.lab_runs (events_of
       (ImplementLabs.main Cases.lab1_interrupted Cases.only_lab1
          (Stage.mkState tt (ImplementLabs.init false))))
     = [(1, Stage.Interrupt)]
  /\ Stage.exit_code (outcome_of
       (ImplementLabs.main Cases.lab1_interrupted Cases.only_lab1
          (Stage.mkState tt (ImplementLabs.init false)))) = 0.
Proof. vm_compute. repeat split. Qed.
